(** * effectiveT3.py: the Galaxy wrapper for Effective T3

    A shallow embedding of [tools/effectiveT3/effectiveT3.py] and the
    properties of its output normalizer ([clean_tabular]) and of the
    script's command-line protocol.

    The script is Python 2 ([except Exception, err]), so [str] is a byte
    string: it is modelled by [string], a sequence of 8-bit [ascii]
    characters.  Every [str] method the script calls is given below with
    Python's name and argument order ([s.startswith(p)] is
    [startswith s p]). *)

From Stdlib Require Import String Ascii List Bool Arith NArith ZArith Lia.
From Stdlib Require Import DecimalString.
Import ListNotations.
Open Scope string_scope.
Open Scope list_scope.

(** ** Python 2 byte-string methods *)

Module Py.

(** [s.startswith(p)] *)
Fixpoint startswith (s p : string) {struct p} : bool :=
  match p with
  | EmptyString => true
  | String a p' =>
      match s with
      | EmptyString => false
      | String b s' => Ascii.eqb b a && startswith s' p'
      end
  end.

(** [s[n:]] for [0 <= n] *)
Fixpoint slice_from (n : nat) (s : string) : string :=
  match n, s with
  | O, _ => s
  | S _, EmptyString => EmptyString
  | S n', String _ s' => slice_from n' s'
  end.

(** [s[:-1]] *)
Fixpoint slice_to_minus1 (s : string) : string :=
  match s with
  | EmptyString => EmptyString
  | String _ EmptyString => EmptyString
  | String c s' => String c (slice_to_minus1 s')
  end.

(** [s.endswith(p)] *)
Definition endswith (s p : string) : bool :=
  (String.length p <=? String.length s)%nat
  && String.eqb (slice_from (String.length s - String.length p) s) p.

(** [sub in s] *)
Fixpoint contains (s sub : string) : bool :=
  startswith s sub
  || match s with
     | EmptyString => false
     | String _ s' => contains s' sub
     end.

(** [s.count(sub)] for a non-empty [sub]: the number of non-overlapping
    occurrences, scanning from the left.  [skip] is the number of
    characters still covered by the occurrence found last. *)
Fixpoint count_from (skip : nat) (s sub : string) : nat :=
  match s with
  | EmptyString => O
  | String _ s' =>
      match skip with
      | S k => count_from k s' sub
      | O => if startswith s sub
             then S (count_from (String.length sub - 1) s' sub)
             else count_from O s' sub
      end
  end.

Definition count (s sub : string) : nat := count_from O s sub.

(** [s.partition(sep)] when [sep] occurs in [s] (first occurrence). *)
Fixpoint partition (s sep : string) : option (string * string) :=
  if startswith s sep then Some (EmptyString, slice_from (String.length sep) s)
  else match s with
       | EmptyString => None
       | String c s' =>
           match partition s' sep with
           | Some (l, r) => Some (String c l, r)
           | None => None
           end
       end.

(** [s.rpartition(sep)] when [sep] occurs in [s] (last occurrence). *)
Fixpoint rpartition (s sep : string) : option (string * string) :=
  match s with
  | EmptyString =>
      if startswith s sep then Some (EmptyString, EmptyString) else None
  | String c s' =>
      match rpartition s' sep with
      | Some (l, r) => Some (String c l, r)
      | None =>
          if startswith s sep
          then Some (EmptyString, slice_from (String.length sep) s)
          else None
      end
  end.

(** [s.split(sep, maxsplit)] for a non-empty [sep] and [0 <= maxsplit]. *)
Fixpoint split (s sep : string) (maxsplit : nat) : list string :=
  match maxsplit with
  | O => [s]
  | S n =>
      match partition s sep with
      | None => [s]
      | Some (l, r) => l :: split r sep n
      end
  end.

(** [s.rsplit(sep, maxsplit)] for a non-empty [sep] and [0 <= maxsplit]. *)
Fixpoint rsplit (s sep : string) (maxsplit : nat) : list string :=
  match maxsplit with
  | O => [s]
  | S n =>
      match rpartition s sep with
      | None => [s]
      | Some (l, r) => rsplit l sep n ++ [r]
      end
  end.

(** Membership of a character in the [chars] argument of [rstrip]. *)
Fixpoint char_in (c : ascii) (chars : string) : bool :=
  match chars with
  | EmptyString => false
  | String a chars' => Ascii.eqb c a || char_in c chars'
  end.

(** [s.rstrip(chars)] *)
Fixpoint rstrip (s chars : string) : string :=
  match s with
  | EmptyString => EmptyString
  | String c s' =>
      match rstrip s' chars with
      | EmptyString => if char_in c chars then EmptyString
                       else String c EmptyString
      | r => String c r
      end
  end.

(** [s.lstrip(chars)] *)
Fixpoint lstrip (s chars : string) : string :=
  match s with
  | EmptyString => EmptyString
  | String c s' => if char_in c chars then lstrip s' chars else s
  end.

(** The characters [Py_ISSPACE] accepts: space, tab, newline, vertical
    tab, form feed and carriage return. *)
Definition whitespace : string :=
  String " " (String "009" (String "010" (String "011"
    (String "012" (String "013" EmptyString))))).

(** [s.strip()] *)
Definition strip (s : string) : string :=
  rstrip (lstrip s whitespace) whitespace.

(** [c.lower()] on one character: only [A]..[Z] change. *)
Definition lower_char (c : ascii) : ascii :=
  let n := nat_of_ascii c in
  if ((65 <=? n) && (n <=? 90))%nat then ascii_of_nat (n + 32) else c.

(** [s.lower()] *)
Fixpoint lower (s : string) : string :=
  match s with
  | EmptyString => EmptyString
  | String c s' => String (lower_char c) (lower s')
  end.

(** [sep.join(l)] *)
Fixpoint join (sep : string) (l : list string) : string :=
  match l with
  | [] => EmptyString
  | [x] => x
  | x :: l' => x ++ sep ++ join sep l'
  end.

End Py.

(** ** Formatting: [repr] and [%i] *)

Module Fmt.

Definition hex_digit (n : nat) : ascii :=
  if (n <? 10)%nat then ascii_of_nat (48 + n) else ascii_of_nat (87 + n).

Definition backslash : ascii := "092"%char.
Definition squote : ascii := "039"%char.
Definition dquote : ascii := "034"%char.

(** One character of [repr(s)], [quote] being the chosen delimiter. *)
Definition repr_char (quote c : ascii) : string :=
  let n := nat_of_ascii c in
  if Ascii.eqb c quote || Ascii.eqb c backslash
  then String backslash (String c EmptyString)
  else if (n =? 9)%nat then String backslash "t"
  else if (n =? 10)%nat then String backslash "n"
  else if (n =? 13)%nat then String backslash "r"
  else if (n <? 32)%nat || (127 <=? n)%nat
  then String backslash
         (String "x" (String (hex_digit (n / 16))
                        (String (hex_digit (n mod 16)) EmptyString)))
  else String c EmptyString.

Fixpoint repr_body (quote : ascii) (s : string) : string :=
  match s with
  | EmptyString => EmptyString
  | String c s' => repr_char quote c ++ repr_body quote s'
  end.

(** [repr(s)] of a Python 2 [str]: single quotes, unless the string has
    a single quote and no double quote. *)
Definition repr (s : string) : string :=
  let quote :=
    if Py.char_in squote s && negb (Py.char_in dquote s)
    then dquote else squote in
  String quote (repr_body quote s ++ String quote EmptyString).

(** ["%i" % n] *)
Definition fmt_i (n : Z) : string := NilEmpty.string_of_int (Z.to_int n).

End Fmt.

(** ** [float(s)] and the comparison [float(s) < 0]

    Python 2.7 converts with its own correctly rounded [strtod]
    ([_Py_dg_strtod], then [_Py_parse_inf_or_nan]).  The script only
    compares the result with zero, so a float is kept as what was read:
    a sign, a decimal mantissa and a decimal exponent.  [strtod] refuses
    literals of more than [10^9] digits; strings of that size are left
    out. *)

Module Float.

Inductive pyfloat : Type :=
| Nan
| Inf (neg : bool)
| Dec (neg : bool) (mantissa : N) (exp10 : Z).

Definition digit_of (c : ascii) : option N :=
  let n := N_of_ascii c in
  if ((48 <=? n) && (n <=? 57))%N then Some (n - 48)%N else None.

(** Reads the longest run of decimal digits, continuing the number [acc]:
    the number read, how many digits it had, and the rest. *)
Fixpoint digits (acc : N) (s : string) : N * nat * string :=
  match s with
  | EmptyString => (acc, O, s)
  | String c s' =>
      match digit_of c with
      | Some d => let '(v, k, r) := digits (10 * acc + d)%N s' in (v, S k, r)
      | None => (acc, O, s)
      end
  end.

(** An optional sign: whether it was [-], and the rest. *)
Definition sign (s : string) : bool * string :=
  match s with
  | String "-" s' => (true, s')
  | String "+" s' => (false, s')
  | _ => (false, s)
  end.

(** The exponent part: [e] or [E], an optional sign and at least one
    digit; when no digit follows, nothing is consumed. *)
Definition exponent (s : string) : Z * string :=
  match s with
  | String c s' =>
      if Ascii.eqb c "e" || Ascii.eqb c "E" then
        let '(esign, s1) := sign s' in
        let '(v, k, r) := digits 0 s1 in
        match k with
        | O => (0%Z, s)
        | S _ => ((if esign then - Z.of_N v else Z.of_N v)%Z, r)
        end
      else (0%Z, s)
  | EmptyString => (0%Z, s)
  end.

(** [_Py_dg_strtod]: the decimal literal at the start of [s], if any,
    and what follows it. *)
Definition strtod (s : string) : option (pyfloat * string) :=
  let '(neg, s1) := sign s in
  let '(vi, ni, s2) := digits 0 s1 in
  let '(m, nf, s3) :=
    match s2 with
    | String "." s2' => digits vi s2'
    | _ => (vi, O, s2)
    end in
  match (ni + nf)%nat with
  | O => None
  | S _ =>
      let '(e, s4) := exponent s3 in
      Some (Dec neg m (e - Z.of_nat nf), s4)
  end.

(** [_Py_parse_inf_or_nan]: an optional sign and [inf], [infinity] or
    [nan], in any letter case. *)
Definition parse_inf_or_nan (s : string) : option (pyfloat * string) :=
  let '(neg, s1) := sign s in
  let l := Py.lower s1 in
  if Py.startswith l "inf" then
    if Py.startswith (Py.slice_from 3 l) "inity"
    then Some (Inf neg, Py.slice_from 8 s1)
    else Some (Inf neg, Py.slice_from 3 s1)
  else if Py.startswith l "nan" then Some (Nan, Py.slice_from 3 s1)
  else None.

(** [float(s)]: [None] is [ValueError]. *)
Definition float (s : string) : option pyfloat :=
  let s0 := Py.lstrip s Py.whitespace in
  let r := match strtod s0 with
           | Some r => Some r
           | None => parse_inf_or_nan s0
           end in
  match r with
  | Some (x, rest) =>
      match Py.lstrip rest Py.whitespace with
      | EmptyString => Some x
      | _ => None
      end
  | None => None
  end.

(** Whether [mantissa * 10^exp10] rounds to a zero of binary64: it does
    when it is at most [2^-1075], half of the smallest subnormal (the tie
    goes to the even neighbour, zero). *)
Definition rounds_to_zero (mantissa : N) (exp10 : Z) : bool :=
  if (mantissa =? 0)%N then true
  else if (0 <=? exp10)%Z then false
  else (Z.of_N mantissa * 2 ^ 1075 <=? 10 ^ (- exp10))%Z.

(** [x < 0] *)
Definition lt_zero (x : pyfloat) : bool :=
  match x with
  | Nan => false
  | Inf neg => neg
  | Dec neg m e => neg && negb (rounds_to_zero m e)
  end.

End Float.

(** ** Effects: what the script does to the outside, and how it stops *)

(** The argument of [sys.exit]. *)
Inductive exit_arg : Type :=
| ExitCode (code : Z)
| ExitMsg (msg : string).

(** The exceptions the script raises. *)
Inductive exn : Type :=
| SystemExit (arg : exit_arg)
| AssertionError (msg : string)
| ValueError.

(** What the script does to stdout, stderr, the working directory, the
    process table and the files it writes, in the order it does it.  A
    file handle opened for writing is named by its path. *)
Inductive event : Type :=
| Print (s : string)
| StderrWrite (s : string)
| Chdir (dir : string)
| Popen (cmd : list string)
| OpenW (path : string)
| Write (path : string) (s : string)
| Remove (path : string).

(** A computation: the events so far and either the exception that
    stopped it or its value. *)
Definition M (A : Type) : Type := list event * (exn + A).

Definition ret {A} (a : A) : M A := ([], inr a).

Definition raise {A} (e : exn) : M A := ([], inl e).

Definition emit (e : event) : M unit := ([e], inr tt).

Definition bind {A B} (m : M A) (f : A -> M B) : M B :=
  match m with
  | (t1, inl e) => (t1, inl e)
  | (t1, inr a) => let '(t2, r) := f a in (t1 ++ t2, r)
  end.

Declare Scope py_scope.
Delimit Scope py_scope with py.
Notation "x <- c1 ;; c2" := (bind c1 (fun x => c2))
  (at level 61, c1 at next level, right associativity) : py_scope.
Notation "' pat <- c1 ;; c2" := (bind c1 (fun x => match x with pat => c2 end))
  (at level 61, pat pattern, c1 at next level, right associativity) : py_scope.
Notation "c1 ;; c2" := (bind c1 (fun _ => c2))
  (at level 61, right associativity) : py_scope.
Open Scope py_scope.

(** [sys.exit(arg)] *)
Definition sys_exit {A} (arg : exit_arg) : M A := raise (SystemExit arg).

(** The exit status the interpreter ends with: zero at the end of the
    script, the code given to [sys.exit], and one after [sys.exit] with a
    message (printed on stderr) or an uncaught exception. *)
Definition exit_status {A} (r : exn + A) : Z :=
  match r with
  | inr _ => 0%Z
  | inl (SystemExit (ExitCode n)) => n
  | inl _ => 1%Z
  end.

(** The last line the interpreter prints on stderr when it stops on an
    exception: the message of [sys.exit], or of the assertion. *)
Definition diagnostic (e : exn) : string :=
  match e with
  | SystemExit (ExitCode _) => EmptyString
  | SystemExit (ExitMsg msg) => msg
  | AssertionError msg => "AssertionError: " ++ msg
  | ValueError => "ValueError"
  end.

(** ** The output normalizer, [clean_tabular] *)

Definition nl : string := String "010" EmptyString.
Definition tab : string := String "009" EmptyString.
Definition crlf : string := String "013" nl.

(** A tuple assignment from a list raises [ValueError] ([None]) unless
    the lengths agree. *)
Definition unpack2 (l : list string) : option (string * string) :=
  match l with
  | [a; b] => Some (a, b)
  | _ => None
  end.

Definition unpack3 (l : list string) : option (string * string * string) :=
  match l with
  | [a; b; c] => Some (a, b, c)
  | _ => None
  end.

(** The [continue] test at the head of the loop. *)
Definition skipped (line : string) : bool :=
  String.eqb line EmptyString
  || Py.startswith line "#"
  || Py.startswith line "Id; Description; Score;".

(** The body of the [try]: [(id, descr, score, effective)], or [None]
    when it raises [ValueError]. *)
Definition split_line (line : string)
  : option (string * string * string * string) :=
  match unpack3 (Py.rsplit (Py.rstrip line crlf) ";" 2) with
  | None => None
  | Some (id_descr, score, effective) =>
      if negb (Py.contains id_descr "; ") && Py.endswith id_descr ";"
      then Some (Py.slice_to_minus1 id_descr, EmptyString, score, effective)
      else match unpack2 (Py.split id_descr "; " 1) with
           | None => None
           | Some (id, descr) => Some (id, descr, score, effective)
           end
  end.

(** [[s.strip() for s in [id, descr, score, effective]]] *)
Definition parts (f : string * string * string * string) : list string :=
  let '(id, descr, score, effective) := f in
  map Py.strip [id; descr; score; effective].

(** The row written for a line's fields. *)
Definition row (f : string * string * string * string) : string :=
  Py.join tab (parts f) ++ nl.

(** The counters [count], [positive] and [errors]. *)
Record counters : Type := Counters {
  count : nat;
  positive : nat;
  errors : nat
}.

(** One turn of the [for] loop. *)
Definition loop_body (out_handle : string) (line : string) (c : counters)
  : M counters :=
  if skipped line then ret c
  else if (Py.count line ";" <? 3)%nat
  then raise (AssertionError (Fmt.repr line))
  else
    match split_line line with
    | None =>
        sys_exit (ExitMsg ("Problem parsing line:" ++ nl ++ line ++ nl))
    | Some (id, descr, score, effective) =>
        emit (Write out_handle (row (id, descr, score, effective))) ;;
        let count := S (count c) in
        x <- match Float.float score with
             | Some x => ret x
             | None => raise ValueError
             end ;;
        let errors := if Float.lt_zero x then S (errors c) else errors c in
        let positive := if String.eqb (Py.lower effective) "true"
                        then S (positive c) else positive c in
        ret (Counters count positive errors)
    end.

(** [for line in raw_handle: ...] with the counters as loop state. *)
Fixpoint for_lines (body : string -> counters -> M counters)
  (raw_handle : list string) (c : counters) : M counters :=
  match raw_handle with
  | [] => ret c
  | line :: rest => c' <- body line c ;; for_lines body rest c'
  end.

(** [clean_tabular(raw_handle, out_handle)]: [raw_handle] is the sequence
    of lines it iterates over. *)
Definition clean_tabular (raw_handle : list string) (out_handle : string)
  : M counters :=
  for_lines (loop_body out_handle) raw_handle (Counters 0 0 0).

(** ** The script *)

(** [os.path.join(a, b)] of [posixpath]. *)
Definition path_join (a b : string) : string :=
  if Py.startswith b "/" then b
  else if String.eqb a EmptyString || Py.endswith a "/" then a ++ b
  else a ++ "/" ++ b.

(** The lines a file object yields: each ends with its newline, but for
    the last when the file does not end with one. *)
Fixpoint readlines (content : string) : list string :=
  match content with
  | EmptyString => []
  | String c rest =>
      if Ascii.eqb c "010" then String c EmptyString :: readlines rest
      else match readlines rest with
           | [] => [String c EmptyString]
           | l :: ls => String c l :: ls
           end
  end.

(** What [subprocess.Popen] and [communicate] give. *)
Inductive popen_result : Type :=
| SpawnError (err : string)
| Exited (return_code : Z) (stdout stderr : string).

(** The environment the script runs in: what [os.environ], [os.path],
    [os.listdir], [os.chdir] and [subprocess] answer.  The tool is the
    only thing that changes the file system between the script's
    queries, so the queries made after it ran have their own answers.
    Opening the output file, reading the tool's output and removing it
    are taken to succeed. *)
Record World : Type := {
  environ_get : string -> option string;
  isfile : string -> bool;
  isdir : string -> bool;
  listdir : string -> list string;
  abspath : string -> string;
  chdir : string -> bool;
  popen : list string -> popen_result;
  isfile_after_run : string -> bool;
  read_after_run : string -> string
}.

Definition version_string : string := "Wrapper v0.0.16, TTSS_GUI-1.0.1.jar".

Definition header_row : string :=
  "#ID" ++ tab ++ "Description" ++ tab ++ "Score" ++ tab ++ "Effective" ++ nl.

(** The test on [threshold]: true when the script goes on. *)
Definition threshold_ok (threshold : string) : bool :=
  existsb (String.eqb threshold) ["selective"; "sensitive"]
  || Py.startswith threshold "cutoff=".

(** [run(cmd)] *)
Definition run (w : World) (cmd : list string) : M unit :=
  emit (Popen cmd) ;;
  match popen w cmd with
  | SpawnError err =>
      sys_exit (ExitMsg ("Error invoking command:" ++ nl ++ Py.join " " cmd
                         ++ nl ++ nl ++ err ++ nl))
  | Exited return_code stdout stderr =>
      if negb (return_code =? 0)%Z
         || Py.startswith stderr "Exception in thread"
      then
        let cmd_str := Py.join " " cmd in
        if negb (String.eqb stderr EmptyString)
           && negb (String.eqb stdout EmptyString)
        then sys_exit (ExitMsg ("Return code " ++ Fmt.fmt_i return_code
                                ++ " from command:" ++ nl ++ cmd_str
                                ++ nl ++ nl ++ stdout ++ nl ++ nl ++ stderr))
        else sys_exit (ExitMsg ("Return code " ++ Fmt.fmt_i return_code
                                ++ " from command:" ++ nl ++ cmd_str
                                ++ nl ++ stderr))
      else ret tt
  end.

(** The summary line and the final test on the counters. *)
Definition report (c : counters) : M unit :=
  (if negb (errors c =? 0)%nat
   then emit (Print (Fmt.fmt_i (Z.of_nat (count c)) ++ " sequences, "
                     ++ Fmt.fmt_i (Z.of_nat (positive c)) ++ " positive, "
                     ++ Fmt.fmt_i (Z.of_nat (errors c)) ++ " errors"))
   else emit (Print (Fmt.fmt_i (Z.of_nat (positive c)) ++ "/"
                     ++ Fmt.fmt_i (Z.of_nat (count c))
                     ++ " sequences positive"))) ;;
  if negb (count c =? 0)%nat && (count c =? errors c)%nat
  then sys_exit (ExitMsg "All your sequences gave an error code")
  else ret tt.

(** The module-level names of the script that depend on the environment
    and on the arguments. *)
Definition effective_t3_dir (w : World) : string :=
  match environ_get w "EFFECTIVET3" with
  | Some d => d
  | None => "/opt/EffectiveT3/"
  end.

Definition effective_t3_jar (w : World) : string :=
  path_join (effective_t3_dir w) "TTSS_GUI-1.0.1.jar".

Definition module_dir (w : World) : string :=
  path_join (effective_t3_dir w) "module".

Definition effective_t3_model (w : World) (model : string) : string :=
  path_join (module_dir w) model.

Definition temp_file (w : World) (tabular_file : string) : string :=
  abspath w (tabular_file ++ ".tmp").

Definition cmd (w : World) (model threshold fasta_file tabular_file : string)
  : list string :=
  ["java"; "-jar"; effective_t3_jar w;
   "-f"; abspath w fasta_file;
   "-m"; model;
   "-t"; threshold;
   "-o"; temp_file w tabular_file;
   "-q"].

(** The test for the version flag. *)
Definition version_flag (argv : list string) : bool :=
  existsb (String.eqb "-v") argv || existsb (String.eqb "--version") argv.

(** The script, run with [sys.argv = argv]. *)
Definition main (w : World) (argv : list string) : M unit :=
  if version_flag argv
  then emit (Print version_string) ;; sys_exit (ExitCode 0)
  else
  match argv with
  | [_; model; threshold; fasta_file; tabular_file] =>
    if negb (isfile w fasta_file)
    then sys_exit (ExitMsg ("Input FASTA file not found: " ++ fasta_file))
    else if negb (threshold_ok threshold)
    then sys_exit (ExitMsg
           ("Threshold should be selective, sensitive, or cutoff=..., not "
            ++ Fmt.repr threshold))
    else if negb (isdir w (effective_t3_dir w))
    then sys_exit (ExitMsg ("Effective T3 folder not found: "
                            ++ Fmt.repr (effective_t3_dir w)))
    else if negb (isfile w (effective_t3_jar w))
    then sys_exit (ExitMsg ("Effective T3 JAR file not found: "
                            ++ Fmt.repr (effective_t3_jar w)))
    else if negb (isdir w (module_dir w))
    then sys_exit (ExitMsg ("Effective T3 module folder not found: "
                            ++ Fmt.repr (module_dir w)))
    else if negb (isfile w (effective_t3_model w model))
    then
      emit (StderrWrite ("Contents of " ++ Fmt.repr (module_dir w) ++ " is "
                         ++ Py.join ", "
                              (map Fmt.repr (listdir w (module_dir w)))
                         ++ nl)) ;;
      emit (StderrWrite ("Main JAR was found: "
                         ++ Fmt.repr (effective_t3_jar w) ++ nl)) ;;
      sys_exit (ExitMsg ("Effective T3 model JAR file not found: "
                         ++ Fmt.repr (effective_t3_model w model)))
    else
    (if chdir w (effective_t3_dir w) then emit (Chdir (effective_t3_dir w))
     else sys_exit (ExitMsg ("Could not change to Effective T3 folder: "
                             ++ effective_t3_dir w))) ;;
    run w (cmd w model threshold fasta_file tabular_file) ;;
    if negb (isfile_after_run w (temp_file w tabular_file))
    then sys_exit (ExitMsg "ERROR - No output file from Effective T3")
    else
    emit (OpenW (abspath w tabular_file)) ;;
    emit (Write (abspath w tabular_file) header_row) ;;
    c <- clean_tabular
           (readlines (read_after_run w (temp_file w tabular_file)))
           (abspath w tabular_file) ;;
    emit (Remove (temp_file w tabular_file)) ;;
    report c
  | _ =>
    sys_exit (ExitMsg "Require four arguments: model, threshold, input protein FASTA file & output tabular file")
  end.

(** * The vocabulary of the statements *)

(** ** Records and what the loop tests on them *)

(** What a line is to the loop: its fields as split and what the tests
    on them give. *)
Definition score_of (f : string * string * string * string) : string :=
  let '(_, _, score, _) := f in score.

Definition effective_of (f : string * string * string * string) : string :=
  let '(_, _, _, effective) := f in effective.

Definition negative (f : string * string * string * string) : bool :=
  match Float.float (score_of f) with
  | Some x => Float.lt_zero x
  | None => false
  end.

Definition says_true (f : string * string * string * string) : bool :=
  String.eqb (Py.lower (effective_of f)) "true".

(** The counters after a record with fields [f]. *)
Definition tally (f : string * string * string * string) (c : counters)
  : counters :=
  Counters (S (count c))
           (if says_true f then S (positive c) else positive c)
           (if negative f then S (errors c) else errors c).

(** The classification field of a record, as it is written to the row:
    trimmed. *)
Definition classification (f : string * string * string * string) : string :=
  Py.strip (effective_of f).

Definition classified_true (f : string * string * string * string) : bool :=
  String.eqb (Py.lower (classification f)) "true".

(** The records of a stream: the fields of its lines that are not
    skipped. *)
Definition records (raw : list string)
  : list (string * string * string * string) :=
  flat_map (fun line =>
              if skipped line then []
              else match split_line line with
                   | Some f => [f]
                   | None => []
                   end) raw.

(** A line of the tool's format: three semicolons or more, fields that
    split, and a score that [float] reads. *)
Definition well_formed (line : string) : bool :=
  (3 <=? Py.count line ";")%nat
  && match split_line line with
     | Some f => match Float.float (score_of f) with
                 | Some _ => true
                 | None => false
                 end
     | None => false
     end.

Definition stream_ok (raw : list string) : Prop :=
  Forall (fun line => skipped line = true \/ well_formed line = true) raw.

(** ** Runs of the script *)

(** [run(cmd)] returns: the tool exited with code zero and no exception
    marker on its stderr. *)
Definition run_ok (w : World) (cmd : list string) : bool :=
  match popen w cmd with
  | Exited return_code _ stderr =>
      (return_code =? 0)%Z
      && negb (Py.startswith stderr "Exception in thread")
  | SpawnError _ => false
  end.

(** The run gets as far as opening the output file: no version flag,
    four arguments, every check passed, the tool ran and left its
    output. *)
Definition reaches_normalizer (w : World) (argv : list string) : bool :=
  negb (version_flag argv)
  && match argv with
     | [_; model; threshold; fasta_file; tabular_file] =>
         isfile w fasta_file
         && threshold_ok threshold
         && isdir w (effective_t3_dir w)
         && isfile w (effective_t3_jar w)
         && isdir w (module_dir w)
         && isfile w (effective_t3_model w model)
         && chdir w (effective_t3_dir w)
         && run_ok w (cmd w model threshold fasta_file tabular_file)
         && isfile_after_run w (temp_file w tabular_file)
     | _ => false
     end.

(** What such a run has done when the normalizer starts. *)
Definition before_normalizer (w : World)
  (model threshold fasta_file tabular_file : string) : list event :=
  [Chdir (effective_t3_dir w);
   Popen (cmd w model threshold fasta_file tabular_file);
   OpenW (abspath w tabular_file);
   Write (abspath w tabular_file) header_row].

(** The checks on the installation and the change of directory, which
    follow the check on the threshold. *)
Definition installed (w : World) (model : string) : bool :=
  isdir w (effective_t3_dir w)
  && isfile w (effective_t3_jar w)
  && isdir w (module_dir w)
  && isfile w (effective_t3_model w model)
  && chdir w (effective_t3_dir w).

(** The content of the file [path] after a sequence of events: [None]
    when the script has not created it, or has removed it. *)
Fixpoint file_after (path : string) (content : option (list string))
  (t : list event) : option (list string) :=
  match t with
  | [] => content
  | OpenW p :: t' =>
      file_after path (if String.eqb p path then Some [] else content) t'
  | Write p s :: t' =>
      file_after path
        (if String.eqb p path then option_map (fun l => l ++ [s]) content
         else content) t'
  | Remove p :: t' =>
      file_after path (if String.eqb p path then None else content) t'
  | _ :: t' => file_after path content t'
  end.

(** Whether the tool was started. *)
Definition invoked (t : list event) : bool :=
  existsb (fun e => match e with Popen _ => true | _ => false end) t.

(** ** Reading [repr] back *)

(** The value of a hexadecimal digit as [repr] writes it. *)
Definition hex_value (c : ascii) : nat :=
  let n := nat_of_ascii c in if (n <? 58)%nat then n - 48 else n - 87.

(** The character that the start of a [repr] body stands for, and what
    follows it. *)
Definition unrepr_char (s : string) : option (ascii * string) :=
  match s with
  | EmptyString => None
  | String c r =>
      if Ascii.eqb c Fmt.backslash then
        match r with
        | EmptyString => None
        | String d r' =>
            if Ascii.eqb d "t" then Some ("009"%char, r')
            else if Ascii.eqb d "n" then Some ("010"%char, r')
            else if Ascii.eqb d "r" then Some ("013"%char, r')
            else if Ascii.eqb d "x" then
              match r' with
              | String h (String l r'') =>
                  Some (ascii_of_nat (16 * hex_value h + hex_value l), r'')
              | _ => None
              end
            else Some (d, r')
        end
      else Some (c, r)
  end.

(** ** A stub for the tool *)

(** An installation under the default folder with one model, and a tool
    that exits with code zero leaving [raw] as its output. *)
Definition stub_world (raw : string) : World := {|
  environ_get := fun _ => None;
  isfile := fun p =>
    existsb (String.eqb p)
      ["in.fasta"; "/opt/EffectiveT3/TTSS_GUI-1.0.1.jar";
       "/opt/EffectiveT3/module/TTSS_STD-1.0.1.jar"];
  isdir := fun p =>
    existsb (String.eqb p) ["/opt/EffectiveT3/"; "/opt/EffectiveT3/module"];
  listdir := fun _ => ["TTSS_STD-1.0.1.jar"];
  abspath := fun p => ("/galaxy/" ++ p)%string;
  chdir := fun p => String.eqb p "/opt/EffectiveT3/";
  popen := fun _ => Exited 0 EmptyString EmptyString;
  isfile_after_run := fun p => String.eqb p "/galaxy/out.tabular.tmp";
  read_after_run := fun _ => raw
|}.

Definition stub_argv (threshold : string) : list string :=
  ["effectiveT3.py"; "TTSS_STD-1.0.1.jar"; threshold; "in.fasta";
   "out.tabular"].

(** ** Traces and arguments *)

(** Whether an event creates, writes or removes a file. *)
Definition file_event (e : event) : bool :=
  match e with
  | OpenW _ | Write _ _ | Remove _ => true
  | _ => false
  end.

(** The output path given on the command line, [sys.argv[4]]. *)
Definition tabular_arg (argv : list string) : string := nth 4 argv EmptyString.

(** Every check made before the tool is started has passed. *)
Definition validated (w : World) (argv : list string) : bool :=
  negb (version_flag argv)
  && match argv with
     | [_; model; threshold; fasta_file; _] =>
         isfile w fasta_file && threshold_ok threshold && installed w model
     | _ => false
     end.

(** The lines the normalizer reads in a run. *)
Definition raw_lines (w : World) (argv : list string) : list string :=
  readlines (read_after_run w (temp_file w (tabular_arg argv))).

(** A string that ends with a newline and has no other. *)
Definition single_line (s : string) : Prop :=
  exists body, s = (body ++ nl)%string /\ Py.char_in "010" body = false.

(** A string made of white space only. *)
Fixpoint blank (s : string) : bool :=
  match s with
  | EmptyString => true
  | String c s' => Py.char_in c Py.whitespace && blank s'
  end.

(** The command of a run, from [sys.argv]. *)
Definition cmd_arg (w : World) (argv : list string) : list string :=
  cmd w (nth 1 argv EmptyString) (nth 2 argv EmptyString)
    (nth 3 argv EmptyString) (tabular_arg argv).

(** What the run has done when the normalizer starts, from [sys.argv]. *)
Definition before_normalizer_arg (w : World) (argv : list string)
  : list event :=
  before_normalizer w (nth 1 argv EmptyString) (nth 2 argv EmptyString)
    (nth 3 argv EmptyString) (tabular_arg argv).

(** How many times a trace starts the tool. *)
Definition starts (t : list event) : nat :=
  length (filter (fun e => match e with Popen _ => true | _ => false end) t).

(** Whether a trace removes a file or prints on stdout. *)
Definition cleans_up (t : list event) : bool :=
  existsb (fun e => match e with Remove _ | Print _ => true | _ => false end)
    t.

(** The events a run with arguments [argv] may show. *)
Definition expected (w : World) (argv : list string) (e : event) : Prop :=
  match e with
  | OpenW p | Write p _ => p = abspath w (tabular_arg argv)
  | Remove p => p = temp_file w (tabular_arg argv)
  | Chdir d => d = effective_t3_dir w
  | Popen c => c = cmd_arg w argv
  | Print _ | StderrWrite _ => True
  end.

(** The ways one line stops the loop. *)
Definition stops_on (line : string) (e : exn) : Prop :=
  skipped line = false
  /\ (((Py.count line ";" < 3)%nat /\ e = AssertionError (Fmt.repr line))
      \/ ((3 <= Py.count line ";")%nat /\ split_line line = None
          /\ e = SystemExit
                   (ExitMsg ("Problem parsing line:" ++ nl ++ line ++ nl)))
      \/ ((3 <= Py.count line ";")%nat
          /\ (exists f, split_line line = Some f
                        /\ Float.float (score_of f) = None)
          /\ e = ValueError)).

(** The stub installation with a tool that ends as [r] says. *)
Definition stub_world_with (raw : string) (r : popen_result) : World := {|
  environ_get := environ_get (stub_world raw);
  isfile := isfile (stub_world raw);
  isdir := isdir (stub_world raw);
  listdir := listdir (stub_world raw);
  abspath := abspath (stub_world raw);
  chdir := chdir (stub_world raw);
  popen := fun _ => r;
  isfile_after_run := isfile_after_run (stub_world raw);
  read_after_run := read_after_run (stub_world raw)
|}.

(** * Facts about the string methods *)

Section StringFacts.

Lemma append_assoc (a b c : string) : ((a ++ b) ++ c = a ++ b ++ c)%string.
Proof.
  induction a as [|x a IH]; simpl; [reflexivity | now rewrite IH].
Qed.

Lemma append_empty_r (a : string) : (a ++ EmptyString = a)%string.
Proof.
  induction a as [|x a IH]; simpl; [reflexivity | now rewrite IH].
Qed.

(** The separator is one character, as in [rsplit(";", 2)] and
    [count(";")]. *)
Variable c : ascii.
Local Abbreviation sep := (String c EmptyString).

Lemma startswith_char (s : string) :
  Py.startswith s sep =
  match s with
  | EmptyString => false
  | String b _ => Ascii.eqb b c
  end.
Proof.
  destruct s as [|b s]; simpl; [reflexivity | apply andb_true_r].
Qed.

Lemma count_cons (b : ascii) (s : string) :
  Py.count (String b s) sep =
  ((if Ascii.eqb b c then 1 else 0) + Py.count s sep)%nat.
Proof.
  unfold Py.count; simpl. rewrite andb_true_r.
  destruct (Ascii.eqb b c); reflexivity.
Qed.

Lemma count_app (s1 s2 : string) :
  Py.count (s1 ++ s2)%string sep = (Py.count s1 sep + Py.count s2 sep)%nat.
Proof.
  induction s1 as [|b s1 IH]; [reflexivity|].
  change (String b s1 ++ s2)%string with (String b (s1 ++ s2)%string).
  rewrite !count_cons, IH. lia.
Qed.

Lemma rpartition_none (s : string) :
  Py.rpartition s sep = None -> Py.count s sep = O.
Proof.
  induction s as [|b s IH]; [reflexivity|].
  intros H. rewrite count_cons. cbn [Py.rpartition] in H.
  destruct (Py.rpartition s sep) as [[l r]|]; [discriminate|].
  rewrite startswith_char in H.
  destruct (Ascii.eqb b c); [discriminate|]. now rewrite IH.
Qed.

Lemma rpartition_some (s l r : string) :
  Py.rpartition s sep = Some (l, r) ->
  s = (l ++ sep ++ r)%string /\ Py.count r sep = O.
Proof.
  revert l. induction s as [|b s IH]; intros l H.
  - discriminate.
  - cbn [Py.rpartition] in H.
    destruct (Py.rpartition s sep) as [[l' r']|] eqn:E.
    + injection H as <- <-. destruct (IH l' eq_refl) as [-> Hr].
      split; [reflexivity | exact Hr].
    + rewrite startswith_char in H.
      destruct (Ascii.eqb_spec b c) as [->|]; [|discriminate].
      injection H as <- <-. split; [reflexivity|].
      now apply rpartition_none.
Qed.

(** With two separators or more, [rsplit(sep, 2)] cuts at the last two:
    the two right pieces have no separator. *)
Lemma rsplit_two (s : string) :
  (2 <= Py.count s sep)%nat ->
  exists a b d,
    Py.rsplit s sep 2 = [a; b; d]
    /\ s = (a ++ sep ++ b ++ sep ++ d)%string
    /\ Py.count b sep = O /\ Py.count d sep = O.
Proof.
  intros H. cbn [Py.rsplit].
  destruct (Py.rpartition s sep) as [[l d]|] eqn:E1.
  - destruct (rpartition_some _ _ _ E1) as [-> Hd].
    rewrite !count_app, Hd in H.
    rewrite count_cons, Ascii.eqb_refl in H. cbn in H.
    destruct (Py.rpartition l sep) as [[a b]|] eqn:E2.
    + destruct (rpartition_some _ _ _ E2) as [-> Hb].
      exists a, b, d. repeat split; auto.
      now rewrite !append_assoc.
    + apply rpartition_none in E2. lia.
  - apply rpartition_none in E1. lia.
Qed.

(** Stripping other characters on the right keeps the separators. *)
Lemma count_rstrip (s chars : string) :
  Py.char_in c chars = false ->
  Py.count (Py.rstrip s chars) sep = Py.count s sep.
Proof.
  intros Hc. induction s as [|b s IH]; [reflexivity|].
  cbn [Py.rstrip]. rewrite count_cons, <- IH.
  destruct (Py.rstrip s chars) as [|b' r].
  - destruct (Py.char_in b chars) eqn:Eb.
    + destruct (Ascii.eqb_spec b c) as [->|]; [congruence | reflexivity].
    + now rewrite count_cons.
  - now rewrite count_cons.
Qed.

End StringFacts.

Lemma endswith_char (s : string) (c : ascii) :
  Py.endswith s (String c EmptyString) = true ->
  s = (Py.slice_to_minus1 s ++ String c EmptyString)%string.
Proof.
  unfold Py.endswith. cbn [String.length].
  induction s as [|b s IH]; [discriminate|].
  destruct s as [|b' s'].
  - cbn. intros H. destruct (Ascii.eqb_spec b c) as [->|]; [reflexivity|discriminate].
  - intros H. cbn [Py.slice_to_minus1 String.append]. f_equal.
    apply IH. cbn [String.length Nat.leb Nat.sub Py.slice_from] in *.
    rewrite Nat.sub_0_r in *. exact H.
Qed.

(** ** The first separator of [split] *)

Lemma startswith_slice (s p : string) :
  Py.startswith s p = true ->
  s = (p ++ Py.slice_from (String.length p) s)%string.
Proof.
  revert s. induction p as [|a p IH]; intros s H; [reflexivity|].
  destruct s as [|b s]; [discriminate|].
  cbn [Py.startswith] in H. apply andb_prop in H as [H1 H2].
  apply Ascii.eqb_eq in H1 as ->.
  cbn [String.length Py.slice_from String.append]. f_equal. now apply IH.
Qed.

Lemma partition_some (s sep l r : string) :
  Py.partition s sep = Some (l, r) -> s = (l ++ sep ++ r)%string.
Proof.
  revert l. induction s as [|b s IH]; intros l H.
  - cbn [Py.partition] in H.
    destruct (Py.startswith EmptyString sep) eqn:E; [|discriminate].
    injection H as <- <-. now apply startswith_slice.
  - cbn [Py.partition] in H.
    destruct (Py.startswith (String b s) sep) eqn:E.
    + injection H as <- <-. now apply startswith_slice.
    + destruct (Py.partition s sep) as [[l' r']|]; [|discriminate].
      injection H as <- <-. cbn [String.append]. f_equal. now apply IH.
Qed.

(** ** Letter case and white space *)

Lemma lower_char_whitespace (c : ascii) :
  Py.char_in (Py.lower_char c) Py.whitespace = Py.char_in c Py.whitespace.
Proof. destruct c as [[] [] [] [] [] [] [] []]; reflexivity. Qed.

(** A string that lowercases to [true] has no white space to strip. *)
Lemma lower_true_strip (s : string) :
  Py.lower s = "true" -> Py.strip s = s.
Proof.
  destruct s as [|a [|b [|c [|d [|e s]]]]]; try discriminate.
  cbn [Py.lower]. intros H. injection H as Ha _ _ Hd.
  assert (Ha' : Py.char_in a Py.whitespace = false)
    by (rewrite <- lower_char_whitespace, Ha; reflexivity).
  assert (Hd' : Py.char_in d Py.whitespace = false)
    by (rewrite <- lower_char_whitespace, Hd; reflexivity).
  unfold Py.strip. cbn [Py.lstrip]. rewrite Ha'.
  cbn [Py.rstrip]. rewrite Hd'. reflexivity.
Qed.

(** ** [repr] loses nothing *)

Lemma unrepr_repr_char (q c : ascii) (rest : string) :
  q = Fmt.squote \/ q = Fmt.dquote ->
  unrepr_char (Fmt.repr_char q c ++ rest) = Some (c, rest).
Proof.
  intros [-> | ->];
    destruct c as [[] [] [] [] [] [] [] []]; reflexivity.
Qed.

Lemma repr_char_nonempty q c : Fmt.repr_char q c <> EmptyString.
Proof.
  unfold Fmt.repr_char.
  repeat match goal with |- context [if ?b then _ else _] => destruct b end;
    discriminate.
Qed.

Lemma repr_body_inj q s1 s2 :
  q = Fmt.squote \/ q = Fmt.dquote ->
  Fmt.repr_body q s1 = Fmt.repr_body q s2 -> s1 = s2.
Proof.
  intros Hq. revert s2. induction s1 as [|c1 s1 IH]; intros [|c2 s2] H;
    cbn [Fmt.repr_body] in H.
  - reflexivity.
  - exfalso. destruct (Fmt.repr_char q c2) eqn:E; [|discriminate].
    now apply repr_char_nonempty in E.
  - exfalso. destruct (Fmt.repr_char q c1) eqn:E; [|discriminate].
    now apply repr_char_nonempty in E.
  - apply (f_equal unrepr_char) in H.
    rewrite !unrepr_repr_char in H by assumption.
    injection H as -> H. f_equal. now apply IH.
Qed.

Lemma list_ascii_of_append (x y : string) :
  list_ascii_of_string (x ++ y)
  = list_ascii_of_string x ++ list_ascii_of_string y.
Proof.
  induction x as [|k x IH]; cbn; [reflexivity | now rewrite IH].
Qed.

Lemma append_inv_tail (a b c : string) :
  (a ++ c = b ++ c)%string -> a = b.
Proof.
  intros H. apply (f_equal list_ascii_of_string) in H.
  rewrite !list_ascii_of_append in H. apply app_inv_tail in H.
  rewrite <- (string_of_list_ascii_of_string a),
          <- (string_of_list_ascii_of_string b). now rewrite H.
Qed.

(** Two strings with the same [repr] are the same string. *)
Lemma repr_inj s1 s2 : Fmt.repr s1 = Fmt.repr s2 -> s1 = s2.
Proof.
  unfold Fmt.repr. intros H. injection H as Hq Hb.
  set (q1 := if Py.char_in Fmt.squote s1 && negb (Py.char_in Fmt.dquote s1)
             then Fmt.dquote else Fmt.squote) in *.
  set (q2 := if Py.char_in Fmt.squote s2 && negb (Py.char_in Fmt.dquote s2)
             then Fmt.dquote else Fmt.squote) in *.
  assert (Hq1 : q1 = Fmt.squote \/ q1 = Fmt.dquote).
  { unfold q1. destruct (_ && _); auto. }
  clearbody q1 q2. subst q2.
  apply append_inv_tail in Hb. now apply (repr_body_inj q1).
Qed.

(** * Facts about computations *)

Lemma bind_assoc {A B C} (m : M A) (f : A -> M B) (g : B -> M C) :
  bind (bind m f) g = bind m (fun a => bind (f a) g).
Proof.
  destruct m as [t1 [e|a]]; [reflexivity|]. unfold bind.
  destruct (f a) as [t2 [e|b]]; [reflexivity|].
  destruct (g b) as [t3 r]. now rewrite app_assoc.
Qed.

Lemma bind_raised {A B} (t : list event) (e : exn) (f : A -> M B) :
  bind (t, inl e) f = (t, inl e).
Proof. reflexivity. Qed.

Lemma bind_returned {A B} (t : list event) (a : A) (f : A -> M B) :
  bind (t, inr a) f = (t ++ fst (f a), snd (f a)).
Proof. unfold bind. now destruct (f a). Qed.

Lemma bind_ext {A B} (m : M A) (f g : A -> M B) :
  (forall a, f a = g a) -> bind m f = bind m g.
Proof.
  intros H. destruct m as [t [e|a]]; [reflexivity|]. unfold bind.
  now rewrite H.
Qed.

Lemma for_lines_app body (l1 l2 : list string) (c : counters) :
  for_lines body (l1 ++ l2) c
  = bind (for_lines body l1 c) (for_lines body l2).
Proof.
  revert c. induction l1 as [|line l1 IH]; intros c; cbn [for_lines app].
  - unfold bind, ret. now destruct (for_lines body l2 c).
  - rewrite bind_assoc. apply bind_ext. intros c'. apply IH.
Qed.

(** The loop stops at the first line whose turn raises. *)
Lemma for_lines_stops body (pre post : list string) (line : string)
  (c c1 : counters) (t t' : list event) (e : exn) :
  for_lines body pre c = (t, inr c1) ->
  body line c1 = (t', inl e) ->
  for_lines body (pre ++ line :: post) c = (t ++ t', inl e).
Proof.
  intros Hpre Hline. rewrite for_lines_app, Hpre.
  unfold bind at 1. cbn [for_lines]. rewrite Hline. reflexivity.
Qed.

Lemma fst_bind_emit {B} (e : event) (f : unit -> M B) :
  fst (bind (emit e) f) = e :: fst (f tt).
Proof. unfold bind, emit. now destruct (f tt). Qed.

(** ** One turn of the loop *)

Lemma loop_body_skipped out line c :
  skipped line = true -> loop_body out line c = ([], inr c).
Proof. intros H. unfold loop_body. now rewrite H. Qed.

Lemma loop_body_too_few out line c :
  skipped line = false -> (Py.count line ";" < 3)%nat ->
  loop_body out line c = ([], inl (AssertionError (Fmt.repr line))).
Proof.
  intros H1 H2. unfold loop_body. rewrite H1.
  apply Nat.ltb_lt in H2. now rewrite H2.
Qed.

Lemma loop_body_unparsed out line c :
  skipped line = false -> (3 <= Py.count line ";")%nat ->
  split_line line = None ->
  loop_body out line c
  = ([], inl (SystemExit
                (ExitMsg ("Problem parsing line:" ++ nl ++ line ++ nl)))).
Proof.
  intros H1 H2 H3. unfold loop_body. rewrite H1, H3.
  apply Nat.ltb_ge in H2. now rewrite H2.
Qed.

Lemma loop_body_record out line c f x :
  skipped line = false -> (3 <= Py.count line ";")%nat ->
  split_line line = Some f -> Float.float (score_of f) = Some x ->
  loop_body out line c = ([Write out (row f)], inr (tally f c)).
Proof.
  intros H1 H2 H3 H4. unfold loop_body. rewrite H1, H3.
  apply Nat.ltb_ge in H2. rewrite H2.
  destruct f as [[[id descr] score] effective]. cbn [score_of] in H4.
  unfold tally, negative, says_true. cbn [score_of effective_of].
  rewrite H4. reflexivity.
Qed.

Lemma loop_body_bad_score out line c f :
  skipped line = false -> (3 <= Py.count line ";")%nat ->
  split_line line = Some f -> Float.float (score_of f) = None ->
  loop_body out line c = ([Write out (row f)], inl ValueError).
Proof.
  intros H1 H2 H3 H4. unfold loop_body. rewrite H1, H3.
  apply Nat.ltb_ge in H2. rewrite H2.
  destruct f as [[[id descr] score] effective]. cbn [score_of] in H4.
  rewrite H4. reflexivity.
Qed.

(** A turn that returns either skipped its line or wrote one row and
    tallied one record. *)
Lemma loop_body_returns out line c t c' :
  loop_body out line c = (t, inr c') ->
  (skipped line = true /\ t = [] /\ c' = c)
  \/ (skipped line = false /\ (3 <= Py.count line ";")%nat /\
      exists f x, split_line line = Some f
                  /\ Float.float (score_of f) = Some x
                  /\ t = [Write out (row f)] /\ c' = tally f c).
Proof.
  intros H. destruct (skipped line) eqn:H1.
  - rewrite loop_body_skipped in H by assumption. left.
    injection H as <- <-. auto.
  - right. split; [reflexivity|].
    destruct (Nat.lt_ge_cases (Py.count line ";") 3) as [H2|H2].
    { rewrite loop_body_too_few in H by assumption. discriminate. }
    split; [assumption|].
    destruct (split_line line) as [f|] eqn:H3.
    2:{ rewrite loop_body_unparsed in H by assumption. discriminate. }
    destruct (Float.float (score_of f)) as [x|] eqn:H4.
    2:{ rewrite (loop_body_bad_score _ _ _ f) in H by assumption.
        discriminate. }
    rewrite (loop_body_record _ _ _ f x) in H by assumption.
    injection H as <- <-. exists f, x. auto.
Qed.

(** ** The whole loop *)

(** A loop that returns wrote one row per record it counted, and raised
    neither of the other counters by more than that. *)
Lemma for_lines_returns out raw c t c' :
  for_lines (loop_body out) raw c = (t, inr c') ->
  exists rows,
    t = map (Write out) rows
    /\ count c' = (count c + length rows)%nat
    /\ (positive c <= positive c' <= positive c + length rows)%nat
    /\ (errors c <= errors c' <= errors c + length rows)%nat.
Proof.
  revert c t. induction raw as [|line rest IH]; intros c t H.
  - injection H as <- <-. exists []. cbn. repeat split; lia.
  - cbn [for_lines] in H.
    destruct (loop_body out line c) as [t1 [e|c1]] eqn:E1; [discriminate|].
    unfold bind in H.
    destruct (for_lines (loop_body out) rest c1) as [t2 r2] eqn:E2.
    injection H as <- ->.
    destruct (IH _ _ E2) as (rows & -> & Hc & Hp & He).
    destruct (loop_body_returns _ _ _ _ _ E1)
      as [(_ & -> & ->) | (_ & _ & f & x & _ & _ & -> & ->)].
    + exists rows. auto.
    + exists (row f :: rows). unfold tally in *. cbn in *.
      destruct (says_true f), (negative f); repeat split; lia.
Qed.

Lemma well_formed_inv line :
  well_formed line = true ->
  (3 <= Py.count line ";")%nat
  /\ exists f x, split_line line = Some f
                 /\ Float.float (score_of f) = Some x.
Proof.
  unfold well_formed. intros H. apply andb_prop in H as [H1 H2].
  apply Nat.leb_le in H1. split; [assumption|].
  destruct (split_line line) as [f|]; [|discriminate].
  destruct (Float.float (score_of f)) as [x|] eqn:Hx; [|discriminate].
  now exists f, x.
Qed.

Lemma records_length raw :
  stream_ok raw ->
  length (records raw) = length (filter (fun l => negb (skipped l)) raw).
Proof.
  induction 1 as [|line rest H _ IH]; [reflexivity|].
  cbn [records flat_map filter]. fold (records rest).
  rewrite length_app, IH.
  destruct (skipped line) eqn:E; cbn [negb length]; [reflexivity|].
  destruct H as [H|H]; [discriminate|].
  destruct (well_formed_inv _ H) as (_ & f & x & -> & _). reflexivity.
Qed.

(** What the loop does on a stream of skipped and well-formed lines: it
    writes the row of every record and tallies each one, the positive
    counter going up where the classification, as split, says true. *)
Lemma for_lines_accounting out raw c :
  stream_ok raw ->
  for_lines (loop_body out) raw c
  = (map (fun f => Write out (row f)) (records raw),
     inr (Counters (count c + length (records raw))
                   (positive c + length (filter says_true (records raw)))
                   (errors c + length (filter negative (records raw))))).
Proof.
  intros H. revert c. induction H as [|line rest H _ IH]; intros c.
  - cbn. rewrite !Nat.add_0_r. now destruct c.
  - cbn [for_lines records flat_map]. fold (records rest).
    destruct (skipped line) eqn:E.
    + rewrite loop_body_skipped by assumption. unfold bind.
      rewrite IH. reflexivity.
    + destruct H as [H|H]; [discriminate|].
      destruct (well_formed_inv _ H) as (H3 & f & x & Hf & Hx).
      rewrite (loop_body_record _ _ _ f x) by assumption.
      rewrite Hf. unfold bind. rewrite IH. cbn [app map filter].
      unfold tally. cbn [count positive errors].
      destruct (says_true f), (negative f); cbn [length];
        do 2 f_equal; f_equal; lia.
Qed.

Lemma clean_tabular_accounting raw out :
  stream_ok raw ->
  clean_tabular raw out
  = (map (fun f => Write out (row f)) (records raw),
     inr (Counters (length (records raw))
                   (length (filter says_true (records raw)))
                   (length (filter negative (records raw))))).
Proof.
  intros H. unfold clean_tabular. now rewrite for_lines_accounting.
Qed.

(** ** The positive counter and the trimmed classification *)

Lemma says_true_classified_true f :
  says_true f = true -> classified_true f = true.
Proof.
  unfold says_true, classified_true, classification. intros H.
  apply String.eqb_eq in H. rewrite (lower_true_strip _ H), H. reflexivity.
Qed.

Lemma filter_length_le {A} (p q : A -> bool) (l : list A) :
  (forall x, p x = true -> q x = true) ->
  (length (filter p l) <= length (filter q l))%nat.
Proof.
  intros H. induction l as [|x l IH]; [constructor|].
  cbn [filter]. destruct (p x) eqn:E.
  - rewrite (H _ E). cbn [length]. lia.
  - destruct (q x); cbn [length]; lia.
Qed.

(** On a stream of skipped and well-formed lines the positive counter
    never exceeds the number of records whose trimmed classification is
    [true]. *)
Lemma positive_undercounts raw out t c :
  stream_ok raw -> clean_tabular raw out = (t, inr c) ->
  (positive c <= length (filter classified_true (records raw)))%nat.
Proof.
  intros H Hc. rewrite (clean_tabular_accounting _ _ H) in Hc.
  injection Hc as _ <-. cbn [positive].
  apply filter_length_le, says_true_classified_true.
Qed.

(** ** The script up to the normalizer *)

Lemma run_returns w cmd :
  run_ok w cmd = true -> run w cmd = ([Popen cmd], inr tt).
Proof.
  unfold run_ok, run. destruct (popen w cmd) as [err|rc out err];
    [discriminate|].
  intros H. apply andb_prop in H as [H1 H2].
  rewrite H1. apply negb_true_iff in H2. rewrite H2. reflexivity.
Qed.

Lemma main_normalizes w prog model threshold fasta_file tabular_file :
  reaches_normalizer w [prog; model; threshold; fasta_file; tabular_file]
  = true ->
  main w [prog; model; threshold; fasta_file; tabular_file]
  = bind (before_normalizer w model threshold fasta_file tabular_file,
          inr tt)
      (fun _ =>
         c <- clean_tabular
                (readlines (read_after_run w (temp_file w tabular_file)))
                (abspath w tabular_file) ;;
         emit (Remove (temp_file w tabular_file)) ;;
         report c).
Proof.
  unfold reaches_normalizer. intros H.
  apply andb_prop in H as [Hv H]. cbv beta iota in H.
  repeat (apply andb_prop in H as [H ?]).
  unfold main. apply negb_true_iff in Hv. rewrite Hv.
  repeat match goal with
         | Hx : ?b = true |- context [negb ?b] => rewrite Hx; cbn [negb]
         end.
  match goal with Hx : chdir _ _ = true |- _ => rewrite Hx end.
  match goal with Hx : run_ok _ _ = true |- _ =>
    rewrite (run_returns _ _ Hx) end.
  unfold before_normalizer, bind, emit.
  destruct (clean_tabular _ _) as [t [e|c]]; [reflexivity|].
  destruct (report c) as [t2 r2]. reflexivity.
Qed.

(** ** Files after a run *)

Lemma file_after_app path content t1 t2 :
  file_after path content (t1 ++ t2)
  = file_after path (file_after path content t1) t2.
Proof.
  revert content. induction t1 as [|e t1 IH]; intros content;
    [reflexivity|].
  destruct e; cbn [app file_after]; apply IH.
Qed.

Lemma file_after_writes path l rows :
  file_after path (Some l) (map (Write path) rows) = Some (l ++ rows).
Proof.
  revert l. induction rows as [|r rows IH]; intros l; cbn [map file_after].
  - now rewrite app_nil_r.
  - rewrite String.eqb_refl. cbn [option_map]. rewrite IH.
    now rewrite <- app_assoc.
Qed.

Lemma invoked_app t1 t2 : invoked (t1 ++ t2) = invoked t1 || invoked t2.
Proof. unfold invoked. apply existsb_app. Qed.

(** ** The end of the script and the version flag *)

Lemma report_all_errors c :
  (0 < count c)%nat -> count c = errors c ->
  report c
  = ([Print (Fmt.fmt_i (Z.of_nat (count c)) ++ " sequences, "
             ++ Fmt.fmt_i (Z.of_nat (positive c)) ++ " positive, "
             ++ Fmt.fmt_i (Z.of_nat (errors c)) ++ " errors")],
     inl (SystemExit (ExitMsg "All your sequences gave an error code"))).
Proof.
  intros H1 H2. unfold report.
  assert (E1 : (errors c =? 0)%nat = false) by (apply Nat.eqb_neq; lia).
  assert (E2 : (count c =? 0)%nat = false) by (apply Nat.eqb_neq; lia).
  assert (E3 : (count c =? errors c)%nat = true) by now apply Nat.eqb_eq.
  rewrite E1, E2, E3. reflexivity.
Qed.

Lemma existsb_eqb_In (x : string) (l : list string) :
  In x l -> existsb (String.eqb x) l = true.
Proof.
  intros H. apply existsb_exists. exists x. split; [exact H|].
  apply String.eqb_refl.
Qed.

(** * The model on examples *)

Example rsplit_keeps_left_semicolons :
  Py.rsplit "id; part1;part2; 0.9; false" ";" 2
  = ["id; part1;part2"; " 0.9"; " false"].
Proof. reflexivity. Qed.

Example rsplit_with_one_separator : Py.rsplit "a;b" ";" 2 = ["a"; "b"].
Proof. reflexivity. Qed.

Example split_at_first_separator :
  Py.split "id; part1; part2" "; " 1 = ["id"; "part1; part2"].
Proof. reflexivity. Qed.

Example split_without_separator : Py.split "a;b" "; " 1 = ["a;b"].
Proof. reflexivity. Qed.

Example rstrip_line_end : Py.rstrip ("x; y " ++ crlf) crlf = "x; y ".
Proof. reflexivity. Qed.

Example strip_both_sides : Py.strip (tab ++ " 0.9 " ++ nl) = "0.9".
Proof. reflexivity. Qed.

Example count_is_not_overlapping : Py.count "aaaaa" "aa" = 2%nat.
Proof. reflexivity. Qed.

Example repr_of_line : Fmt.repr ("a;b" ++ nl) = "'a;b\n'".
Proof. reflexivity. Qed.

Example float_reads :
  map Float.float [" 1.5"; "-2.5e-3 "; "1."; ".5"; "007"; "-inf"; "Infinity";
                   "NaN"]
  = [Some (Float.Dec false 15 (-1)); Some (Float.Dec true 25 (-4));
     Some (Float.Dec false 1 0); Some (Float.Dec false 5 (-1));
     Some (Float.Dec false 7 0); Some (Float.Inf true);
     Some (Float.Inf false); Some Float.Nan].
Proof. reflexivity. Qed.

Example float_rejects :
  map Float.float ["abc"; ""; " "; "1e"; "."; "1 2"; "0x10"; "--1"; "infin"]
  = [None; None; None; None; None; None; None; None; None].
Proof. reflexivity. Qed.

Example lt_zero_cases :
  map (fun s => option_map Float.lt_zero (Float.float s))
    ["-1"; "0.5"; "-0.0"; "-1e-400"; "-5e-324"; "-inf"; "-nan"]
  = [Some true; Some false; Some false; Some false; Some true; Some true;
     Some false].
Proof. vm_compute. reflexivity. Qed.

Example readlines_keeps_line_ends :
  readlines ("a" ++ nl ++ nl ++ "b")
  = [("a" ++ nl)%string; nl; "b"].
Proof. reflexivity. Qed.

Example path_join_cases :
  map (fun p => path_join (fst p) (snd p))
    [("/opt/EffectiveT3/", "module"); ("/opt/EffectiveT3", "module");
     ("/opt/EffectiveT3", "/module"); ("", "module")]
  = ["/opt/EffectiveT3/module"; "/opt/EffectiveT3/module"; "/module";
     "module"].
Proof. reflexivity. Qed.

Example stub_run :
  main (stub_world ("Id; Description; Score; is secreted" ++ nl
                    ++ "a; b; 0.9;true" ++ nl ++ "c;; -2.5; false" ++ nl))
    (stub_argv "selective")
  = ([Chdir "/opt/EffectiveT3/";
      Popen ["java"; "-jar"; "/opt/EffectiveT3/TTSS_GUI-1.0.1.jar";
             "-f"; "/galaxy/in.fasta"; "-m"; "TTSS_STD-1.0.1.jar";
             "-t"; "selective"; "-o"; "/galaxy/out.tabular.tmp"; "-q"];
      OpenW "/galaxy/out.tabular";
      Write "/galaxy/out.tabular" header_row;
      Write "/galaxy/out.tabular"
        ("a" ++ tab ++ "b" ++ tab ++ "0.9" ++ tab ++ "true" ++ nl);
      Write "/galaxy/out.tabular"
        ("c" ++ tab ++ tab ++ "-2.5" ++ tab ++ "false" ++ nl);
      Remove "/galaxy/out.tabular.tmp";
      Print "2 sequences, 1 positive, 1 errors"],
     inr tt).
Proof. reflexivity. Qed.

(** * The claims *)

(** C1.  A line with three semicolons or more, once its line end is
    stripped, is cut by [rsplit(";", 2)] at its last two semicolons: the
    pieces are the id and description together, the score and the
    classification, and the last two have no semicolon.  The fields
    [split_line] gives carry that score and classification, and an id
    and description that make up the first piece.  The line
    ["id; part1;part2; 0.9; false"] gives the trimmed fields [id],
    [part1;part2], [0.9] and [false]. *)
Theorem C1_right_anchored_split :
  (forall line,
     skipped line = false -> (3 <= Py.count line ";")%nat ->
     exists id_descr score effective,
       Py.rsplit (Py.rstrip line crlf) ";" 2 = [id_descr; score; effective]
       /\ Py.rstrip line crlf
          = (id_descr ++ ";" ++ score ++ ";" ++ effective)%string
       /\ Py.count score ";" = O /\ Py.count effective ";" = O
       /\ forall id descr score' effective',
            split_line line = Some (id, descr, score', effective') ->
            score' = score /\ effective' = effective
            /\ (id_descr = (id ++ "; " ++ descr)%string
                \/ (id_descr = (id ++ ";")%string /\ descr = EmptyString)))
  /\ option_map parts (split_line "id; part1;part2; 0.9; false")
     = Some ["id"; "part1;part2"; "0.9"; "false"].
Proof.
  split; [|reflexivity].
  intros line _ H3.
  assert (Hc : Py.count (Py.rstrip line crlf) ";" = Py.count line ";")
    by (apply count_rstrip; reflexivity).
  destruct (rsplit_two ";" (Py.rstrip line crlf))
    as (a & b & d & E & Hs & Hb & Hd); [lia|].
  exists a, b, d.
  split; [exact E|]. split; [exact Hs|]. split; [exact Hb|].
  split; [exact Hd|].
  intros id descr score' effective' H.
  unfold split_line in H. rewrite E in H. cbn [unpack3] in H.
  destruct (negb (Py.contains a "; ") && Py.endswith a ";") eqn:Ec.
  - injection H as <- <- <- <-. apply andb_prop in Ec as [_ Ec].
    split; [reflexivity|]. split; [reflexivity|]. right.
    split; [now apply endswith_char | reflexivity].
  - cbn [Py.split] in H.
    destruct (Py.partition a "; ") as [[l r]|] eqn:Ep; [|discriminate].
    cbn [unpack2] in H. injection H as <- <- <- <-.
    split; [reflexivity|]. split; [reflexivity|]. left.
    now apply partition_some.
Qed.

Lemma C1_right_anchored_split_witness :
  exists id_descr score effective,
    Py.rsplit (Py.rstrip "a;b; c;d; 0.25; true" crlf) ";" 2
    = [id_descr; score; effective]
    /\ Py.rstrip "a;b; c;d; 0.25; true" crlf
       = (id_descr ++ ";" ++ score ++ ";" ++ effective)%string
    /\ Py.count score ";" = O /\ Py.count effective ";" = O
    /\ forall id descr score' effective',
         split_line "a;b; c;d; 0.25; true"
         = Some (id, descr, score', effective') ->
         score' = score /\ effective' = effective
         /\ (id_descr = (id ++ "; " ++ descr)%string
             \/ (id_descr = (id ++ ";")%string /\ descr = EmptyString)).
Proof.
  apply (proj1 C1_right_anchored_split "a;b; c;d; 0.25; true").
  - reflexivity.
  - vm_compute. lia.
Defined.

(** C2.  On the stream made of the one well-formed line
    ["id; descr; 1.5; true"] and its line end, [clean_tabular] writes one
    row and returns a count of one and no error, but a positive counter
    of zero, although the one record's classification field is [true].
    (On every stream of skipped and well-formed lines the rows, the
    count and the error counter are those of the records, and the
    positive counter is the number of records whose classification says
    true before it is trimmed: [clean_tabular_accounting],
    [records_length], [positive_undercounts].) *)
Theorem C2_positive_counter_on_tool_format :
  stream_ok ["id; descr; 1.5; true" ++ nl]%string
  /\ length (filter classified_true
               (records ["id; descr; 1.5; true" ++ nl]%string)) = 1%nat
  /\ forall out,
       clean_tabular ["id; descr; 1.5; true" ++ nl]%string out
       = ([Write out ("id" ++ tab ++ "descr" ++ tab ++ "1.5" ++ tab
                      ++ "true" ++ nl)],
          inr (Counters 1 0 0)).
Proof.
  split; [|split; [reflexivity | intros out; reflexivity]].
  constructor; [right; reflexivity | constructor].
Qed.

(** C3.  When the run reaches the normalizer and [clean_tabular] returns
    counters with a count above zero that equals the error counter, the
    script stops in [sys.exit] with the message that all sequences gave
    an error code, so with status one; by then it has printed the
    summary, and the output file holds the header and one row per counted
    record, the only file removed being the tool's temporary output. *)
Theorem C3_all_errors_exit_nonzero :
  forall w prog model threshold fasta_file tabular_file t c,
    reaches_normalizer w [prog; model; threshold; fasta_file; tabular_file]
    = true ->
    clean_tabular (readlines (read_after_run w (temp_file w tabular_file)))
      (abspath w tabular_file) = (t, inr c) ->
    (0 < count c)%nat -> count c = errors c ->
    temp_file w tabular_file <> abspath w tabular_file ->
    snd (main w [prog; model; threshold; fasta_file; tabular_file])
    = inl (SystemExit (ExitMsg "All your sequences gave an error code"))
    /\ exit_status
         (snd (main w [prog; model; threshold; fasta_file; tabular_file]))
       = 1%Z
    /\ exists rows,
         length rows = count c
         /\ file_after (abspath w tabular_file) None
              (fst (main w [prog; model; threshold; fasta_file;
                            tabular_file]))
            = Some (header_row :: rows).
Proof.
  intros w prog model threshold fasta_file tabular_file t c Hr Hc H1 H2 Hne.
  assert (Hm : main w [prog; model; threshold; fasta_file; tabular_file]
               = (before_normalizer w model threshold fasta_file tabular_file
                  ++ t ++ Remove (temp_file w tabular_file)
                          :: fst (report c),
                  inl (SystemExit
                         (ExitMsg "All your sequences gave an error code")))).
  { rewrite (main_normalizes _ _ _ _ _ _ Hr), Hc. unfold bind, emit.
    rewrite (report_all_errors c H1 H2). reflexivity. }
  rewrite Hm. cbn [fst snd exit_status]. repeat split.
  rewrite (report_all_errors c H1 H2). cbn [fst].
  unfold clean_tabular in Hc.
  destruct (for_lines_returns _ _ _ _ _ Hc) as (rows & -> & Hn & _).
  exists rows. split; [cbn in Hn; lia|].
  unfold before_normalizer. rewrite !file_after_app.
  cbn [file_after]. rewrite String.eqb_refl. cbn [option_map app].
  rewrite file_after_writes.
  apply String.eqb_neq in Hne. cbn [file_after]. now rewrite Hne.
Qed.

Lemma C3_all_errors_exit_nonzero_witness :
  exit_status
    (snd (main (stub_world ("a; b; -1; true" ++ nl ++ "c;; -2.5; false"))
            (stub_argv "cutoff=0.9"))) = 1%Z.
Proof.
  apply (C3_all_errors_exit_nonzero
           (stub_world ("a; b; -1; true" ++ nl ++ "c;; -2.5; false"))
           "effectiveT3.py" "TTSS_STD-1.0.1.jar" "cutoff=0.9" "in.fasta"
           "out.tabular"
           [Write "/galaxy/out.tabular"
              ("a" ++ tab ++ "b" ++ tab ++ "-1" ++ tab ++ "true" ++ nl);
            Write "/galaxy/out.tabular"
              ("c" ++ tab ++ tab ++ "-2.5" ++ tab ++ "false" ++ nl)]
           (Counters 2 0 2));
    try reflexivity.
  - vm_compute. lia.
  - discriminate.
Defined.

(** C4.  On a line that is not skipped and has fewer than three
    semicolons the loop raises [AssertionError] with [repr(line)] as its
    message and writes nothing.  [clean_tabular] then stops there, with
    the rows of the lines before and none for this line, and the script
    ends with status one and a last line on stderr that gives
    [repr(line)], from which the line can be read back. *)
Theorem C4_too_few_semicolons_fatal :
  forall w prog model threshold fasta_file tabular_file pre line post t c1,
    reaches_normalizer w [prog; model; threshold; fasta_file; tabular_file]
    = true ->
    readlines (read_after_run w (temp_file w tabular_file))
    = pre ++ line :: post ->
    clean_tabular pre (abspath w tabular_file) = (t, inr c1) ->
    skipped line = false -> (Py.count line ";" < 3)%nat ->
    loop_body (abspath w tabular_file) line c1
    = ([], inl (AssertionError (Fmt.repr line)))
    /\ clean_tabular (pre ++ line :: post) (abspath w tabular_file)
       = (t, inl (AssertionError (Fmt.repr line)))
    /\ main w [prog; model; threshold; fasta_file; tabular_file]
       = (before_normalizer w model threshold fasta_file tabular_file ++ t,
          inl (AssertionError (Fmt.repr line)))
    /\ exit_status (snd (main w [prog; model; threshold; fasta_file;
                                 tabular_file])) = 1%Z
    /\ diagnostic (AssertionError (Fmt.repr line))
       = ("AssertionError: " ++ Fmt.repr line)%string
    /\ (forall line', Fmt.repr line' = Fmt.repr line -> line' = line)
    /\ (exists rows, t = map (Write (abspath w tabular_file)) rows
                     /\ length rows = count c1).
Proof.
  intros w prog model threshold fasta_file tabular_file pre line post t c1
    Hr Hl Hpre Hs Hc.
  assert (Hb := loop_body_too_few (abspath w tabular_file) line c1 Hs Hc).
  assert (Hct : clean_tabular (pre ++ line :: post) (abspath w tabular_file)
                = (t, inl (AssertionError (Fmt.repr line)))).
  { unfold clean_tabular in *.
    rewrite (for_lines_stops _ pre post line _ c1 t [] _ Hpre Hb).
    now rewrite app_nil_r. }
  assert (Hm : main w [prog; model; threshold; fasta_file; tabular_file]
               = (before_normalizer w model threshold fasta_file
                    tabular_file ++ t,
                  inl (AssertionError (Fmt.repr line)))).
  { rewrite (main_normalizes _ _ _ _ _ _ Hr), Hl, Hct. reflexivity. }
  split; [exact Hb|]. split; [exact Hct|]. split; [exact Hm|].
  split; [now rewrite Hm|]. split; [reflexivity|].
  split; [intros line'; apply repr_inj|].
  unfold clean_tabular in Hpre.
  destruct (for_lines_returns _ _ _ _ _ Hpre) as (rows & -> & Hn & _).
  exists rows. split; [reflexivity|]. cbn in Hn. lia.
Qed.

Lemma C4_too_few_semicolons_fatal_witness :
  exit_status
    (snd (main (stub_world ("a; b; 1; true" ++ nl ++ "broken;line" ++ nl))
            (stub_argv "selective"))) = 1%Z.
Proof.
  apply (C4_too_few_semicolons_fatal
           (stub_world ("a; b; 1; true" ++ nl ++ "broken;line" ++ nl))
           "effectiveT3.py" "TTSS_STD-1.0.1.jar" "selective" "in.fasta"
           "out.tabular"
           ["a; b; 1; true" ++ nl]%string ("broken;line" ++ nl)%string []
           [Write "/galaxy/out.tabular"
              ("a" ++ tab ++ "b" ++ tab ++ "1" ++ tab ++ "true" ++ nl)]
           (Counters 1 0 0));
    reflexivity || (vm_compute; lia).
Defined.

(** C5.  The test on the threshold lets the script go on exactly for
    [selective], [sensitive] and the strings that start with [cutoff=]:
    [cutoff=0.5] passes, [cutoff] and [aggressive] do not.  A run with
    four arguments, no version flag and another value stops with status
    one and has not started the tool; when the input file is found, it
    stops in the [sys.exit] of the test, with the message that names the
    value.  On a complete installation the tool is started exactly when
    the threshold passes the test. *)
Theorem C5_threshold_validation :
  (forall threshold,
     threshold_ok threshold = true
     <-> threshold = "selective" \/ threshold = "sensitive"
         \/ Py.startswith threshold "cutoff=" = true)
  /\ (threshold_ok "cutoff=0.5" = true /\ threshold_ok "cutoff" = false
      /\ threshold_ok "aggressive" = false)
  /\ (forall w prog model threshold fasta_file tabular_file,
        version_flag [prog; model; threshold; fasta_file; tabular_file]
        = false ->
        threshold_ok threshold = false ->
        exit_status
          (snd (main w [prog; model; threshold; fasta_file; tabular_file]))
        = 1%Z
        /\ invoked (fst (main w [prog; model; threshold; fasta_file;
                                 tabular_file])) = false
        /\ (isfile w fasta_file = true ->
            main w [prog; model; threshold; fasta_file; tabular_file]
            = ([], inl (SystemExit (ExitMsg
                 ("Threshold should be selective, sensitive, or cutoff=..., not "
                  ++ Fmt.repr threshold))))))
  /\ (forall w prog model threshold fasta_file tabular_file,
        version_flag [prog; model; threshold; fasta_file; tabular_file]
        = false ->
        isfile w fasta_file = true ->
        installed w model = true ->
        invoked (fst (main w [prog; model; threshold; fasta_file;
                              tabular_file]))
        = threshold_ok threshold).
Proof.
  split; [|split; [|split]].
  - intros threshold. unfold threshold_ok. cbn [existsb].
    rewrite orb_false_r, !orb_true_iff, !String.eqb_eq. tauto.
  - repeat split.
  - intros w prog model threshold fasta_file tabular_file Hv Ht.
    unfold main. rewrite Hv, Ht.
    destruct (isfile w fasta_file); cbn [negb].
    + repeat split.
    + repeat split. discriminate.
  - intros w prog model threshold fasta_file tabular_file Hv Hf Hi.
    unfold installed in Hi. repeat (apply andb_prop in Hi as [Hi ?]).
    unfold main. rewrite Hv, Hf. cbn [negb].
    destruct (threshold_ok threshold); cbn [negb]; [|reflexivity].
    repeat match goal with
           | Hx : ?b = true |- context [negb ?b] => rewrite Hx; cbn [negb]
           end.
    match goal with Hx : chdir _ _ = true |- _ => rewrite Hx end.
    rewrite fst_bind_emit. unfold run. rewrite bind_assoc, fst_bind_emit.
    reflexivity.
Qed.

Lemma C5_threshold_validation_witness :
  (threshold_ok "cutoff=0.5" = true
   <-> "cutoff=0.5" = "selective" \/ "cutoff=0.5" = "sensitive"
       \/ Py.startswith "cutoff=0.5" "cutoff=" = true)
  /\ main (stub_world EmptyString) (stub_argv "cutoff")
     = ([], inl (SystemExit (ExitMsg
          "Threshold should be selective, sensitive, or cutoff=..., not 'cutoff'")))
  /\ invoked (fst (main (stub_world EmptyString) (stub_argv "sensitive")))
     = threshold_ok "sensitive".
Proof.
  split; [|split].
  - apply (proj1 C5_threshold_validation "cutoff=0.5").
  - apply (proj1 (proj2 (proj2 C5_threshold_validation))
             (stub_world EmptyString) "effectiveT3.py" "TTSS_STD-1.0.1.jar"
             "cutoff" "in.fasta" "out.tabular"); reflexivity.
  - apply (proj2 (proj2 (proj2 C5_threshold_validation))
             (stub_world EmptyString) "effectiveT3.py" "TTSS_STD-1.0.1.jar"
             "sensitive" "in.fasta" "out.tabular"); reflexivity.
Defined.

(** C6.  The line ["id; descr; 1.5; true"] is written as the row
    [id<TAB>descr<TAB>1.5<TAB>true<NL>] and counted once, with no error;
    the positive counter stays at zero, because the classification is
    compared as split, with the space that follows the semicolon. *)
Theorem C6_round_trip_row_and_counters :
  forall out,
    clean_tabular ["id; descr; 1.5; true"] out
    = ([Write out ("id" ++ tab ++ "descr" ++ tab ++ "1.5" ++ tab ++ "true"
                   ++ nl)],
       inr (Counters 1 0 0))
    /\ option_map effective_of (split_line "id; descr; 1.5; true")
       = Some " true".
Proof. intros out. split; reflexivity. Qed.

(** C7.  When the id and description piece has no ["; "] and ends with
    [";"], the description is empty and the id is the piece without its
    last character, the semicolon.  The line ["myid;; 0.5; false"] gives
    the trimmed fields [myid], the empty string, [0.5] and [false]. *)
Theorem C7_no_description :
  (forall line id_descr score effective,
     Py.rsplit (Py.rstrip line crlf) ";" 2 = [id_descr; score; effective] ->
     Py.contains id_descr "; " = false ->
     Py.endswith id_descr ";" = true ->
     split_line line
     = Some (Py.slice_to_minus1 id_descr, EmptyString, score, effective)
     /\ id_descr = (Py.slice_to_minus1 id_descr ++ ";")%string)
  /\ option_map parts (split_line "myid;; 0.5; false")
     = Some ["myid"; ""; "0.5"; "false"].
Proof.
  split; [|reflexivity].
  intros line id_descr score effective E Hc He. split.
  - unfold split_line. rewrite E. cbn [unpack3]. now rewrite Hc, He.
  - now apply endswith_char.
Qed.

Lemma C7_no_description_witness :
  split_line "sp|P1234|X;; -0.5; true"
  = Some (Py.slice_to_minus1 "sp|P1234|X;", EmptyString, " -0.5", " true")
  /\ "sp|P1234|X;" = (Py.slice_to_minus1 "sp|P1234|X;" ++ ";")%string.
Proof.
  apply (proj1 C7_no_description "sp|P1234|X;; -0.5; true");
    reflexivity.
Defined.

(** C8.  With [-v] or [--version] anywhere in [sys.argv], whatever the
    other arguments and the environment are, the script prints the
    version string and stops in [sys.exit(0)]: nothing else is done. *)
Theorem C8_version_flag_first :
  forall w argv,
    In "-v" argv \/ In "--version" argv ->
    main w argv = ([Print version_string], inl (SystemExit (ExitCode 0)))
    /\ exit_status (snd (main w argv)) = 0%Z
    /\ version_string = "Wrapper v0.0.16, TTSS_GUI-1.0.1.jar".
Proof.
  intros w argv H.
  assert (Hv : version_flag argv = true).
  { unfold version_flag. destruct H as [H|H];
      rewrite (existsb_eqb_In _ _ H); [reflexivity | apply orb_true_r]. }
  unfold main. rewrite Hv. repeat split.
Qed.

Lemma C8_version_flag_first_witness :
  main (stub_world EmptyString) ["effectiveT3.py"; "nowhere"; "--version"]
  = ([Print version_string], inl (SystemExit (ExitCode 0)))
  /\ exit_status
       (snd (main (stub_world EmptyString)
               ["effectiveT3.py"; "nowhere"; "--version"])) = 0%Z
  /\ version_string = "Wrapper v0.0.16, TTSS_GUI-1.0.1.jar".
Proof.
  apply (C8_version_flag_first (stub_world EmptyString)
           ["effectiveT3.py"; "nowhere"; "--version"]).
  right. cbn. auto.
Defined.

(** C9.  On a line that is not skipped, has three semicolons or more and
    splits into fields, but whose score [float] does not read, the loop
    writes the row and then raises [ValueError]: it is raised after the
    [try], so the handler that reports a parsing problem does not see it,
    and [clean_tabular] stops with the row written.  The line
    ["id; descr; abc; true"] is such a line. *)
Theorem C9_unreadable_score_raises_after_write :
  (forall out pre line post t c1 f,
     clean_tabular pre out = (t, inr c1) ->
     skipped line = false -> (3 <= Py.count line ";")%nat ->
     split_line line = Some f -> Float.float (score_of f) = None ->
     loop_body out line c1 = ([Write out (row f)], inl ValueError)
     /\ clean_tabular (pre ++ line :: post) out
        = (t ++ [Write out (row f)], inl ValueError))
  /\ (forall out,
        clean_tabular ["id; descr; abc; true"] out
        = ([Write out ("id" ++ tab ++ "descr" ++ tab ++ "abc" ++ tab
                       ++ "true" ++ nl)],
           inl ValueError)).
Proof.
  split; [|intros out; reflexivity].
  intros out pre line post t c1 f Hpre H1 H2 H3 H4.
  assert (Hb := loop_body_bad_score out line c1 f H1 H2 H3 H4).
  split; [exact Hb|].
  unfold clean_tabular in *.
  exact (for_lines_stops _ pre post line _ c1 t _ _ Hpre Hb).
Qed.

Lemma C9_unreadable_score_raises_after_write_witness :
  clean_tabular ["x; y; 2;true"; "p; q; 1e; false" ++ nl; "r; s; 3; false"]%string
    "out"
  = ([Write "out" ("x" ++ tab ++ "y" ++ tab ++ "2" ++ tab ++ "true" ++ nl)]
     ++ [Write "out" (row ("p", "q", " 1e", " false"))],
     inl ValueError).
Proof.
  apply (proj1 C9_unreadable_score_raises_after_write "out"
           ["x; y; 2;true"] ("p; q; 1e; false" ++ nl)%string
           ["r; s; 3; false"]
           [Write "out" ("x" ++ tab ++ "y" ++ tab ++ "2" ++ tab ++ "true"
                         ++ nl)]
           (Counters 1 1 0) ("p", "q", " 1e", " false"));
    reflexivity || (vm_compute; lia).
Defined.

(** C10.  When [clean_tabular] returns, neither the positive counter nor
    the error counter exceeds the count.  On the line
    ["id; descr; -1.5; true"], whose score is negative and whose
    classification field is [true], the loop adds one to the count and
    to the error counter but leaves the positive counter at zero: the
    classification is compared as split, with the space that follows the
    semicolon.  Without that space, as in ["id; descr; -1.5;TRUE"], the
    record raises both counters. *)
Theorem C10_counters_bounded_positive_missed :
  (forall raw out t c,
     clean_tabular raw out = (t, inr c) ->
     (positive c <= count c)%nat /\ (errors c <= count c)%nat)
  /\ (split_line "id; descr; -1.5; true"
      = Some ("id", "descr", " -1.5", " true")
      /\ negative ("id", "descr", " -1.5", " true") = true
      /\ classified_true ("id", "descr", " -1.5", " true") = true
      /\ forall out,
           clean_tabular ["id; descr; -1.5; true"] out
           = ([Write out ("id" ++ tab ++ "descr" ++ tab ++ "-1.5" ++ tab
                          ++ "true" ++ nl)],
              inr (Counters 1 0 1)))
  /\ (forall out,
        snd (clean_tabular ["id; descr; -1.5;TRUE"] out)
        = inr (Counters 1 1 1)).
Proof.
  split; [|split].
  - intros raw out t c H. unfold clean_tabular in H.
    destruct (for_lines_returns _ _ _ _ _ H) as (rows & _ & Hc & Hp & He).
    cbn [count positive errors] in *. lia.
  - split; [reflexivity|]. split; [vm_compute; reflexivity|].
    split; [reflexivity|]. intros out. vm_compute. reflexivity.
  - intros out. reflexivity.
Qed.

Lemma C10_counters_bounded_positive_missed_witness :
  (1 <= 2)%nat /\ (1 <= 2)%nat.
Proof.
  apply (proj1 C10_counters_bounded_positive_missed
           ["a; b; 1;true"; "#c"; "d; e; -2; false"] "out"
           [Write "out" ("a" ++ tab ++ "b" ++ tab ++ "1" ++ tab ++ "true"
                         ++ nl);
            Write "out" ("d" ++ tab ++ "e" ++ tab ++ "-2" ++ tab
                         ++ "false" ++ nl)]
           (Counters 2 1 1)).
  reflexivity.
Defined.

(** * Beyond the claims *)

(** ** What one turn writes *)

Lemma loop_body_trace out line c :
  fst (loop_body out line c) = []
  \/ exists f, split_line line = Some f /\ skipped line = false
               /\ fst (loop_body out line c) = [Write out (row f)].
Proof.
  unfold loop_body. destruct (skipped line); [now left|].
  destruct (Py.count line ";" <? 3)%nat; [now left|].
  destruct (split_line line) as [[[[id descr] score] effective]|];
    [|now left].
  right. exists (id, descr, score, effective).
  split; [reflexivity|]. split; [reflexivity|].
  unfold bind, emit. destruct (Float.float score); reflexivity.
Qed.

Lemma loop_body_exn_status out line c t e :
  loop_body out line c = (t, inl e) -> exit_status (@inl exn unit e) = 1%Z.
Proof.
  unfold loop_body. destruct (skipped line); [discriminate|].
  destruct (Py.count line ";" <? 3)%nat.
  { intros H. injection H as _ <-. reflexivity. }
  destruct (split_line line) as [[[[id descr] score] effective]|].
  - unfold bind, emit. destruct (Float.float score); [discriminate|].
    intros H. injection H as _ <-. reflexivity.
  - intros H. injection H as _ <-. reflexivity.
Qed.

Lemma for_lines_exn_status out raw c t e :
  for_lines (loop_body out) raw c = (t, inl e) ->
  exit_status (@inl exn unit e) = 1%Z.
Proof.
  revert c t. induction raw as [|line rest IH]; intros c t H;
    [discriminate|].
  cbn [for_lines] in H.
  destruct (loop_body out line c) as [t1 [e1|c1]] eqn:E1.
  - injection H as _ <-. eapply loop_body_exn_status; eassumption.
  - unfold bind in H.
    destruct (for_lines (loop_body out) rest c1) as [t2 r2] eqn:E2.
    injection H as _ ->. eapply IH; eassumption.
Qed.

Lemma records_cons line rest :
  records (line :: rest)
  = (if skipped line then []
     else match split_line line with Some f => [f] | None => [] end)
    ++ records rest.
Proof. reflexivity. Qed.

(** Whatever the loop does, what it has written is the rows of the
    records of the first lines, in order. *)
Lemma for_lines_trace out raw c :
  exists k, (k <= length raw)%nat
    /\ fst (for_lines (loop_body out) raw c)
       = map (fun f => Write out (row f)) (records (firstn k raw)).
Proof.
  revert c. induction raw as [|line rest IH]; intros c.
  - exists O. split; [constructor | reflexivity].
  - cbn [for_lines].
    destruct (loop_body out line c) as [t1 [e1|c1]] eqn:E1.
    + cbn [bind fst].
      destruct (loop_body_trace out line c) as [H | (f & Hf & Hs & H)];
        rewrite E1 in H; cbn [fst] in H; subst t1.
      * exists O. split; [cbn; lia | reflexivity].
      * exists 1%nat. split; [cbn; lia|].
        cbn [firstn]. rewrite records_cons, Hs, Hf. reflexivity.
    + destruct (IH c1) as (k & Hk & Ht).
      exists (S k). split; [cbn; lia|].
      unfold bind.
      destruct (for_lines (loop_body out) rest c1) as [t2 r2].
      cbn [fst] in *. subst t2. cbn [firstn]. rewrite records_cons.
      rewrite map_app. f_equal.
      destruct (loop_body_returns _ _ _ _ _ E1)
        as [(Hs & -> & _) | (Hs & _ & f & x & Hf & _ & -> & _)].
      * now rewrite Hs.
      * now rewrite Hs, Hf.
Qed.

(** ** Runs that stop before the normalizer *)

Lemma run_trace w c : fst (run w c) = [Popen c].
Proof.
  unfold run. rewrite fst_bind_emit.
  destruct (popen w c) as [err|rc out err]; [reflexivity|].
  destruct (negb (rc =? 0)%Z || Py.startswith err "Exception in thread");
    [|reflexivity].
  destruct (negb (err =? "")%string && negb (out =? "")%string);
    reflexivity.
Qed.

Lemma run_raises w c :
  run_ok w c = false ->
  exists msg, run w c = ([Popen c], inl (SystemExit (ExitMsg msg))).
Proof.
  unfold run_ok, run. destruct (popen w c) as [err|rc out err].
  - intros _. eexists. reflexivity.
  - intros H.
    assert (E : negb (rc =? 0)%Z
                || Py.startswith err "Exception in thread" = true).
    { destruct (rc =? 0)%Z; [|reflexivity]. cbn in H |- *.
      now apply negb_false_iff in H. }
    rewrite E.
    destruct (negb (err =? "")%string && negb (out =? "")%string);
      eexists; reflexivity.
Qed.

Ltac split_test :=
  match goal with
  | |- context [if negb ?b then _ else _] =>
      destruct b eqn:?; cbn [negb andb]
  end.

(** A run without the version flag that does not get to the normalizer
    stops in [sys.exit] with a message, having done nothing, or written
    two lines on stderr, or changed directory and started the tool. *)
Lemma main_stops_early w argv :
  version_flag argv = false -> reaches_normalizer w argv = false ->
  exists msg,
    snd (main w argv) = inl (SystemExit (ExitMsg msg))
    /\ ((validated w argv = false /\ fst (main w argv) = [])
        \/ (validated w argv = false
            /\ exists a b, fst (main w argv) = [StderrWrite a; StderrWrite b])
        \/ (validated w argv = true
            /\ fst (main w argv)
               = [Chdir (effective_t3_dir w); Popen (cmd_arg w argv)])).
Proof.
  intros Hv Hr. unfold main, reaches_normalizer, validated, installed in *.
  rewrite Hv in *. cbn [negb andb] in Hr |- *.
  destruct argv as [|a0 [|a1 [|a2 [|a3 [|a4 [|a5 rest]]]]]];
    try (eexists; split; [reflexivity | left; split; reflexivity]).
  repeat (split_test;
          [| eexists; split; [reflexivity | left; split; reflexivity]]).
  split_test.
  2:{ eexists. split; [reflexivity|]. right. left.
      split; [reflexivity|]. do 2 eexists. reflexivity. }
  cbn [andb] in Hr.
  destruct (chdir w (effective_t3_dir w)) eqn:Ec.
  2:{ eexists. split; [reflexivity | left; split; reflexivity]. }
  cbn [andb] in Hr.
  destruct (run_ok w (cmd w a1 a2 a3 a4)) eqn:Er.
  - cbn [andb] in Hr. rewrite (run_returns _ _ Er), Hr. cbn [negb].
    eexists. split; [reflexivity|]. right. right.
    split; reflexivity.
  - destruct (run_raises _ _ Er) as [msg Hm]. rewrite Hm.
    exists msg. split; [reflexivity|]. right. right.
    split; reflexivity.
Qed.

(** ** Runs that get to the normalizer *)

Lemma reaches_normalizer_argv w argv :
  reaches_normalizer w argv = true ->
  exists prog model threshold fasta_file tabular_file,
    argv = [prog; model; threshold; fasta_file; tabular_file].
Proof.
  unfold reaches_normalizer. intros H. apply andb_prop in H as [_ H].
  destruct argv as [|a0 [|a1 [|a2 [|a3 [|a4 [|a5 rest]]]]]];
    try discriminate.
  now exists a0, a1, a2, a3, a4.
Qed.

Lemma reaches_normalizer_validated w argv :
  reaches_normalizer w argv = true -> validated w argv = true.
Proof.
  unfold reaches_normalizer, validated, installed. intros H.
  apply andb_prop in H as [Hv H]. rewrite Hv. cbn [andb].
  destruct argv as [|a0 [|a1 [|a2 [|a3 [|a4 [|a5 rest]]]]]];
    try discriminate.
  repeat (apply andb_prop in H as [H ?]).
  repeat (apply andb_true_intro; split); assumption.
Qed.

Lemma report_trace c : exists s, fst (report c) = [Print s].
Proof.
  unfold report. destruct (negb (errors c =? 0)%nat);
    rewrite fst_bind_emit;
    destruct (negb (count c =? 0)%nat && (count c =? errors c)%nat);
    eexists; reflexivity.
Qed.

Lemma report_status c :
  exit_status (snd (report c))
  = if negb (count c =? 0)%nat && (count c =? errors c)%nat
    then 1%Z else 0%Z.
Proof.
  unfold report. destruct (negb (errors c =? 0)%nat);
    destruct (negb (count c =? 0)%nat && (count c =? errors c)%nat);
    reflexivity.
Qed.

(** The run from the normalizer on, for any arguments that get there. *)
Lemma main_from_normalizer w argv :
  reaches_normalizer w argv = true ->
    main w argv
    = bind (before_normalizer_arg w argv, inr tt)
        (fun _ =>
           c <- clean_tabular (raw_lines w argv)
                  (abspath w (tabular_arg argv)) ;;
           emit (Remove (temp_file w (tabular_arg argv))) ;;
           report c).
Proof.
  intros H.
  destruct (reaches_normalizer_argv _ _ H) as (p & m & th & f & o & ->).
  now apply main_normalizes.
Qed.

Lemma for_lines_returns_records out raw c t c' :
  for_lines (loop_body out) raw c = (t, inr c') ->
  t = map (fun f => Write out (row f)) (records raw).
Proof.
  revert c t. induction raw as [|line rest IH]; intros c t H.
  - now injection H as <- _.
  - cbn [for_lines] in H.
    destruct (loop_body out line c) as [t1 [e|c1]] eqn:E1; [discriminate|].
    unfold bind in H.
    destruct (for_lines (loop_body out) rest c1) as [t2 r2] eqn:E2.
    injection H as <- ->. rewrite (IH _ _ E2), records_cons, map_app.
    f_equal.
    destruct (loop_body_returns _ _ _ _ _ E1)
      as [(Hs & -> & _) | (Hs & _ & f & x & Hf & _ & -> & _)].
    + now rewrite Hs.
    + now rewrite Hs, Hf.
Qed.

(** The two ways a run that gets to the normalizer ends: on the
    exception of the normalizer, or after the removal of the temporary
    file and the summary. *)
Lemma main_reached w argv :
  reaches_normalizer w argv = true ->
  let raw := raw_lines w argv in
  let out := abspath w (tabular_arg argv) in
  exists k, (k <= length raw)%nat /\
    ((exists e,
        snd (clean_tabular raw out) = inl e
        /\ main w argv
           = (before_normalizer_arg w argv
              ++ map (fun f => Write out (row f)) (records (firstn k raw)),
              inl e))
     \/ (exists c s,
           snd (clean_tabular raw out) = inr c /\ k = length raw
           /\ main w argv
              = (before_normalizer_arg w argv
                 ++ map (fun f => Write out (row f)) (records raw)
                 ++ [Remove (temp_file w (tabular_arg argv)); Print s],
                 snd (report c)))).
Proof.
  intros Hr raw out. rewrite (main_from_normalizer _ _ Hr).
  fold raw out. destruct (clean_tabular raw out) as [t [e|c]] eqn:Ec.
  - destruct (for_lines_trace out raw (Counters 0 0 0)) as (k & Hk & Ht).
    fold (clean_tabular raw out) in Ht. rewrite Ec in Ht. cbn [fst] in Ht.
    exists k. split; [exact Hk|]. left. exists e.
    split; [reflexivity|]. subst t. reflexivity.
  - exists (length raw). split; [constructor|]. right.
    destruct (report_trace c) as [s Hs]. exists c, s.
    split; [reflexivity|]. split; [reflexivity|].
    apply for_lines_returns_records in Ec. subst t.
    unfold bind, emit. destruct (report c) as [t2 r2].
    cbn [fst snd] in *. subst t2. reflexivity.
Qed.

Lemma clean_tabular_exn_status raw out e :
  snd (clean_tabular raw out) = inl e ->
  exit_status (@inl exn unit e) = 1%Z.
Proof.
  destruct (clean_tabular raw out) as [t r] eqn:E. cbn [snd]. intros ->.
  eapply for_lines_exn_status. exact E.
Qed.

(** ** Properties of the script *)

(** X13.  The exit status is zero or one.  It is zero exactly when the version
    was asked for, or when the run got to the normalizer, the normalizer
    returned, and it is not the case that there were records and all
    were errors. *)
Theorem exit_status_zero_iff :
  forall w argv,
    (exit_status (snd (main w argv)) = 0%Z
     \/ exit_status (snd (main w argv)) = 1%Z)
    /\ (exit_status (snd (main w argv)) = 0%Z
        <-> version_flag argv = true
            \/ (reaches_normalizer w argv = true
                /\ exists c,
                     snd (clean_tabular (raw_lines w argv)
                            (abspath w (tabular_arg argv))) = inr c
                     /\ (count c = O \/ count c <> errors c))).
Proof.
  intros w argv. destruct (version_flag argv) eqn:Hv.
  { unfold main. rewrite Hv. cbn. split; [now left|]. split; auto. }
  destruct (reaches_normalizer w argv) eqn:Hr.
  - destruct (main_reached _ _ Hr)
      as (k & _ & [(e & He & Hm) | (c & s & Hc & _ & Hm)]);
      rewrite Hm; cbn [snd].
    + rewrite (clean_tabular_exn_status _ _ _ He).
      split; [now right|]. split; [discriminate|].
      intros [H | (_ & c & Hc & _)]; [discriminate | congruence].
    + rewrite report_status.
      destruct (Nat.eqb_spec (count c) 0) as [E0|E0]; cbn [negb andb].
      * split; [now left|]. split; [|reflexivity]. intros _. right.
        split; [reflexivity|]. exists c. auto.
      * destruct (Nat.eqb_spec (count c) (errors c)) as [E1|E1].
        -- split; [now right|]. split; [discriminate|].
           intros [H | (_ & c' & Hc' & [H|H])]; [discriminate | |];
             rewrite Hc in Hc'; injection Hc' as <-; contradiction.
        -- split; [now left|]. split; [|reflexivity]. intros _. right.
           split; [reflexivity|]. exists c. auto.
  - destruct (main_stops_early _ _ Hv Hr) as (msg & Hm & _).
    rewrite Hm. cbn. split; [now right|]. split; [discriminate|].
    intros [H | (H & _)]; discriminate.
Qed.

Lemma exit_status_zero_iff_witness :
  exit_status
    (snd (main (stub_world ("a; b; 0.5; true" ++ nl)) (stub_argv "sensitive")))
  = 0%Z.
Proof.
  apply (proj2 (proj2 (exit_status_zero_iff
                         (stub_world ("a; b; 0.5; true" ++ nl))
                         (stub_argv "sensitive")))).
  right. split; [reflexivity|]. exists (Counters 1 0 0).
  split; [reflexivity|]. right. discriminate.
Defined.

Lemma starts_app t1 t2 : starts (t1 ++ t2) = (starts t1 + starts t2)%nat.
Proof. unfold starts. now rewrite filter_app, length_app. Qed.

Lemma starts_writes {A} out (g : A -> string) (l : list A) :
  starts (map (fun f => Write out (g f)) l) = O.
Proof. induction l as [|x l IH]; [reflexivity | exact IH]. Qed.

(** X12.  The tool is started once when every check before it has passed, and
    not at all otherwise. *)
Theorem tool_started_once_iff_validated :
  forall w argv,
    starts (fst (main w argv)) = if validated w argv then 1%nat else O.
Proof.
  intros w argv. destruct (version_flag argv) eqn:Hv.
  { unfold main, validated. now rewrite Hv. }
  destruct (reaches_normalizer w argv) eqn:Hr.
  - rewrite (reaches_normalizer_validated _ _ Hr).
    destruct (main_reached _ _ Hr)
      as (k & _ & [(e & _ & Hm) | (c & s & _ & _ & Hm)]);
      rewrite Hm; cbn [fst]; rewrite !starts_app, starts_writes;
      reflexivity.
  - destruct (main_stops_early _ _ Hv Hr)
      as (msg & _ & [(-> & ->) | [(-> & a & b & ->) | (-> & ->)]]);
      reflexivity.
Qed.

Lemma file_after_rows {A} out (g : A -> string) (l : list A) rows :
  file_after out (Some rows) (map (fun f => Write out (g f)) l)
  = Some (rows ++ map g l).
Proof.
  rewrite <- (map_map g (Write out)). apply file_after_writes.
Qed.

(** X14.  The output file exists after a run exactly when the run got to the
    normalizer; it then holds the header row and the rows of the records
    of the first lines of the tool's output, of all of them when the
    normalizer returned. *)
Theorem output_file_after_run :
  forall w argv,
    temp_file w (tabular_arg argv) <> abspath w (tabular_arg argv) ->
    (reaches_normalizer w argv = false ->
     file_after (abspath w (tabular_arg argv)) None (fst (main w argv))
     = None)
    /\ (reaches_normalizer w argv = true ->
        exists k,
          (k <= length (raw_lines w argv))%nat
          /\ (forall c,
                snd (clean_tabular (raw_lines w argv)
                       (abspath w (tabular_arg argv))) = inr c ->
                k = length (raw_lines w argv))
          /\ file_after (abspath w (tabular_arg argv)) None
               (fst (main w argv))
             = Some (header_row
                     :: map row (records (firstn k (raw_lines w argv))))).
Proof.
  intros w argv Hne. split; intros Hr.
  - destruct (version_flag argv) eqn:Hv.
    { unfold main. now rewrite Hv. }
    destruct (main_stops_early _ _ Hv Hr)
      as (msg & _ & [(_ & ->) | [(_ & a & b & ->) | (_ & ->)]]);
      reflexivity.
  - apply String.eqb_neq in Hne.
    destruct (main_reached _ _ Hr)
      as (k & Hk & [(e & He & Hm) | (c & s & Hc & -> & Hm)]).
    + exists k. split; [exact Hk|]. split; [intros c Hc; congruence|].
      rewrite Hm. cbn [fst]. unfold before_normalizer_arg, before_normalizer.
      rewrite file_after_app. cbn [file_after].
      rewrite String.eqb_refl. cbn [option_map app].
      now rewrite file_after_rows.
    + exists (length (raw_lines w argv)). split; [constructor|].
      split; [reflexivity|]. rewrite firstn_all, Hm. cbn [fst].
      unfold before_normalizer_arg, before_normalizer.
      rewrite !file_after_app. cbn [file_after].
      rewrite String.eqb_refl. cbn [option_map app].
      rewrite file_after_rows. cbn [file_after]. now rewrite Hne.
Qed.

Lemma output_file_after_run_witness :
  file_after "/galaxy/out.tabular" None
    (fst (main (stub_world_with EmptyString (SpawnError "no java"))
            (stub_argv "selective")))
  = None
  /\ exists k,
       (k <= length (raw_lines (stub_world ("a; b; 1; true" ++ nl ++ "x;y"))
                       (stub_argv "selective")))%nat
       /\ (forall c,
             snd (clean_tabular
                    (raw_lines (stub_world ("a; b; 1; true" ++ nl ++ "x;y"))
                       (stub_argv "selective"))
                    "/galaxy/out.tabular") = inr c ->
             k = length (raw_lines
                           (stub_world ("a; b; 1; true" ++ nl ++ "x;y"))
                           (stub_argv "selective")))
       /\ file_after "/galaxy/out.tabular" None
            (fst (main (stub_world ("a; b; 1; true" ++ nl ++ "x;y"))
                    (stub_argv "selective")))
          = Some (header_row
                  :: map row
                       (records
                          (firstn k
                             (raw_lines
                                (stub_world ("a; b; 1; true" ++ nl ++ "x;y"))
                                (stub_argv "selective"))))).
Proof.
  split.
  - apply (proj1 (output_file_after_run
                    (stub_world_with EmptyString (SpawnError "no java"))
                    (stub_argv "selective") ltac:(discriminate))).
    reflexivity.
  - apply (proj2 (output_file_after_run
                    (stub_world ("a; b; 1; true" ++ nl ++ "x;y"))
                    (stub_argv "selective") ltac:(discriminate))).
    reflexivity.
Defined.

Lemma cleans_up_app t1 t2 :
  cleans_up (t1 ++ t2) = cleans_up t1 || cleans_up t2.
Proof. unfold cleans_up. apply existsb_app. Qed.

Lemma cleans_up_writes {A} out (g : A -> string) (l : list A) :
  cleans_up (map (fun f => Write out (g f)) l) = false.
Proof. induction l as [|x l IH]; [reflexivity | exact IH]. Qed.

(** X15.  In a run that gets to the normalizer, the temporary file is removed
    and the summary printed exactly when the normalizer returns; when it
    raises, the script ends on that exception, with status one, the
    temporary file left and nothing printed. *)
Theorem cleanup_iff_normalizer_returns :
  forall w argv,
    reaches_normalizer w argv = true ->
    match snd (clean_tabular (raw_lines w argv)
                 (abspath w (tabular_arg argv))) with
    | inr c =>
        exists t s,
          fst (main w argv)
          = t ++ [Remove (temp_file w (tabular_arg argv)); Print s]
          /\ cleans_up t = false
          /\ snd (main w argv) = snd (report c)
    | inl e =>
        cleans_up (fst (main w argv)) = false
        /\ snd (main w argv) = inl e
        /\ exit_status (snd (main w argv)) = 1%Z
    end.
Proof.
  intros w argv Hr.
  destruct (main_reached _ _ Hr)
    as (k & _ & [(e & He & Hm) | (c & s & Hc & _ & Hm)]).
  - rewrite He, Hm. cbn [fst snd].
    rewrite cleans_up_app, cleans_up_writes.
    split; [reflexivity|]. split; [reflexivity|].
    apply (clean_tabular_exn_status _ _ _ He).
  - rewrite Hc, Hm. cbn [fst snd].
    eexists. exists s. rewrite app_assoc. split; [reflexivity|].
    rewrite cleans_up_app, cleans_up_writes. split; reflexivity.
Qed.

Lemma cleanup_iff_normalizer_returns_witness :
  cleans_up (fst (main (stub_world ("a; b; x; true" ++ nl))
                    (stub_argv "selective"))) = false
  /\ snd (main (stub_world ("a; b; x; true" ++ nl)) (stub_argv "selective"))
     = inl ValueError
  /\ exit_status
       (snd (main (stub_world ("a; b; x; true" ++ nl))
               (stub_argv "selective"))) = 1%Z.
Proof.
  apply (cleanup_iff_normalizer_returns
           (stub_world ("a; b; x; true" ++ nl)) (stub_argv "selective")).
  reflexivity.
Defined.

(** X16.  Every event of a run is one of the script's own: it changes to the
    tool's folder, starts the command built from the arguments, opens
    and writes the output file at its absolute path only, and removes
    the temporary file only. *)
Theorem events_are_expected :
  forall w argv e, In e (fst (main w argv)) -> expected w argv e.
Proof.
  intros w argv e Hin. destruct (version_flag argv) eqn:Hv.
  { unfold main in Hin. rewrite Hv in Hin.
    destruct Hin as [<-|[]]. exact I. }
  destruct (reaches_normalizer w argv) eqn:Hr.
  - assert (Hb : forall e, In e (before_normalizer_arg w argv) ->
                           expected w argv e).
    { intros e' H. unfold before_normalizer_arg, before_normalizer in H.
      cbn [In] in H.
      destruct H as [<-|[<-|[<-|[<-|[]]]]]; reflexivity. }
    assert (Hw : forall l e,
               In e (map (fun f => Write (abspath w (tabular_arg argv))
                                     (row f)) l) ->
               expected w argv e).
    { intros l e' H. apply in_map_iff in H as (f & <- & _). reflexivity. }
    destruct (main_reached _ _ Hr)
      as (k & _ & [(x & _ & Hm) | (c & s & _ & _ & Hm)]);
      rewrite Hm in Hin; cbn [fst] in Hin;
      repeat (apply in_app_or in Hin as [Hin|Hin]); eauto.
    destruct Hin as [<-|[<-|[]]]; reflexivity.
  - destruct (main_stops_early _ _ Hv Hr)
      as (msg & _ & [(_ & Ht) | [(_ & a & b & Ht) | (_ & Ht)]]);
      rewrite Ht in Hin.
    + destruct Hin.
    + destruct Hin as [<-|[<-|[]]]; exact I.
    + destruct Hin as [<-|[<-|[]]]; reflexivity.
Qed.

Lemma events_are_expected_witness :
  expected (stub_world ("a; b; 1; true" ++ nl)) (stub_argv "selective")
    (Remove "/galaxy/out.tabular.tmp").
Proof.
  apply (events_are_expected (stub_world ("a; b; 1; true" ++ nl))
           (stub_argv "selective")).
  vm_compute. auto 10.
Defined.

(** X11.  Without the version flag, any number of arguments other than four
    ends the run in [sys.exit] with the usage message, before anything
    else is done. *)
Theorem wrong_arity_exits :
  forall w argv,
    version_flag argv = false -> length argv <> 5%nat ->
    main w argv
    = ([], inl (SystemExit (ExitMsg
         "Require four arguments: model, threshold, input protein FASTA file & output tabular file"))).
Proof.
  intros w argv Hv Hl. unfold main. rewrite Hv.
  destruct argv as [|a0 [|a1 [|a2 [|a3 [|a4 [|a5 rest]]]]]];
    try reflexivity.
  now contradiction Hl.
Qed.

Lemma wrong_arity_exits_witness :
  main (stub_world EmptyString) ["effectiveT3.py"; "TTSS_STD-1.0.1.jar"]
  = ([], inl (SystemExit (ExitMsg
       "Require four arguments: model, threshold, input protein FASTA file & output tabular file"))).
Proof.
  apply (wrong_arity_exits (stub_world EmptyString)
           ["effectiveT3.py"; "TTSS_STD-1.0.1.jar"]).
  - reflexivity.
  - discriminate.
Defined.

(** ** More about the string methods *)

Lemma startswith_app (a b p : string) :
  Py.startswith a p = true -> Py.startswith (a ++ b) p = true.
Proof.
  revert a. induction p as [|x p IH]; intros a H; [reflexivity|].
  destruct a as [|y a]; [discriminate|].
  cbn [Py.startswith String.append] in *.
  apply andb_prop in H as [H1 H2]. now rewrite H1, IH.
Qed.

Lemma startswith_self_app (p b : string) :
  Py.startswith (p ++ b) p = true.
Proof.
  induction p as [|x p IH]; [reflexivity|].
  cbn [Py.startswith String.append]. now rewrite Ascii.eqb_refl, IH.
Qed.

Lemma contains_app_l (a b sub : string) :
  Py.contains a sub = true -> Py.contains (a ++ b) sub = true.
Proof.
  induction a as [|x a IH]; intros H.
  - cbn [Py.contains] in H. rewrite orb_false_r in H.
    destruct sub; [|discriminate].
    destruct b; reflexivity.
  - cbn [Py.contains String.append] in *.
    apply orb_prop in H as [H|H].
    + change (String x (a ++ b)) with (String x a ++ b)%string.
      now rewrite (startswith_app _ _ _ H).
    + rewrite (IH H). apply orb_true_r.
Qed.

Lemma contains_app_r (a b sub : string) :
  Py.contains b sub = true -> Py.contains (a ++ b) sub = true.
Proof.
  intros H. induction a as [|x a IH]; [exact H|].
  cbn [Py.contains String.append]. rewrite IH. apply orb_true_r.
Qed.

Lemma contains_startswith (s sub : string) :
  Py.startswith s sub = true -> Py.contains s sub = true.
Proof. intros H. destruct s; cbn [Py.contains]; now rewrite H. Qed.

Lemma contains_middle (a b sub : string) :
  Py.contains (a ++ sub ++ b) sub = true.
Proof. apply contains_app_r, contains_startswith, startswith_self_app. Qed.

Lemma slice_to_minus1_prefix (s : string) :
  exists r, s = (Py.slice_to_minus1 s ++ r)%string.
Proof.
  induction s as [|x s [r IH]]; [now exists EmptyString|].
  destruct s as [|y s'].
  - now exists (String x EmptyString).
  - exists r.
    change (Py.slice_to_minus1 (String x (String y s')))
      with (String x (Py.slice_to_minus1 (String y s'))).
    cbn [String.append]. f_equal. exact IH.
Qed.

Lemma partition_none_iff (s sep : string) :
  Py.partition s sep = None <-> Py.contains s sep = false.
Proof.
  induction s as [|x s IH]; cbn [Py.partition Py.contains].
  - destruct (Py.startswith EmptyString sep); cbn; split; congruence.
  - destruct (Py.startswith (String x s) sep); cbn [orb].
    + split; congruence.
    + rewrite <- IH. destruct (Py.partition s sep) as [[l r]|];
        split; congruence.
Qed.

(** The left piece of [partition] has no separator: the cut is at the
    first one. *)
Lemma partition_first (s sep l r : string) :
  sep <> EmptyString -> Py.partition s sep = Some (l, r) ->
  Py.contains l sep = false.
Proof.
  intros Hsep. revert l. induction s as [|x s IH]; intros l H;
    cbn [Py.partition] in H.
  - destruct (Py.startswith EmptyString sep); [|discriminate].
    injection H as <- _. destruct sep; [contradiction | reflexivity].
  - destruct (Py.startswith (String x s) sep) eqn:E.
    + injection H as <- _. destruct sep; [contradiction | reflexivity].
    + destruct (Py.partition s sep) as [[l' r']|] eqn:Ep; [|discriminate].
      injection H as <- <-. cbn [Py.contains]. rewrite (IH _ eq_refl).
      rewrite orb_false_r.
      destruct (Py.startswith (String x l') sep) eqn:E'; [|reflexivity].
      apply partition_some in Ep. subst s.
      change (String x (l' ++ sep ++ r'))
        with (String x l' ++ (sep ++ r'))%string in E.
      rewrite (startswith_app _ _ _ E') in E. discriminate.
Qed.

Lemma unpack3_rsplit (c : ascii) (s a b d : string) :
  unpack3 (Py.rsplit s (String c EmptyString) 2) = Some (a, b, d) ->
  s = (a ++ String c EmptyString ++ b ++ String c EmptyString ++ d)%string.
Proof.
  cbn [Py.rsplit].
  destruct (Py.rpartition s (String c EmptyString)) as [[l r]|] eqn:E1;
    [|discriminate].
  destruct (Py.rpartition l (String c EmptyString)) as [[l' r']|] eqn:E2;
    [|discriminate].
  cbn [app unpack3]. intros H. injection H as <- <- <-.
  apply rpartition_some in E1 as [-> _].
  apply rpartition_some in E2 as [-> _].
  now rewrite !append_assoc.
Qed.

(** ** Properties of the split *)

(** X5.  A line with three semicolons or more fails to split exactly when
    the piece left of its last two semicolons neither has ["; "] nor ends
    with [";"]; the loop then stops in [sys.exit] with a message that
    gives the line, and has written nothing for it. *)
Theorem parse_failure_iff :
  forall line,
    (3 <= Py.count line ";")%nat ->
    exists id_descr score effective,
      Py.rsplit (Py.rstrip line crlf) ";" 2 = [id_descr; score; effective]
      /\ (split_line line = None
          <-> Py.contains id_descr "; " = false
              /\ Py.endswith id_descr ";" = false)
      /\ (forall out c,
            skipped line = false -> split_line line = None ->
            loop_body out line c
            = ([], inl (SystemExit
                          (ExitMsg ("Problem parsing line:" ++ nl ++ line
                                    ++ nl))))).
Proof.
  intros line H3.
  assert (Hc : Py.count (Py.rstrip line crlf) ";" = Py.count line ";")
    by (apply count_rstrip; reflexivity).
  destruct (rsplit_two ";" (Py.rstrip line crlf))
    as (a & b & d & E & _); [lia|].
  exists a, b, d. split; [exact E|]. split.
  - unfold split_line. rewrite E. cbn [unpack3 Py.split].
    destruct (Py.contains a "; ") eqn:Ec; cbn [negb andb].
    + destruct (Py.partition a "; ") as [[l r]|] eqn:Ep.
      * cbn [unpack2]. split; [discriminate | intros [? _]; discriminate].
      * apply partition_none_iff in Ep. congruence.
    + destruct (Py.endswith a ";").
      * split; [discriminate | intros [_ ?]; discriminate].
      * destruct (Py.partition a "; ") as [[l r]|] eqn:Ep.
        -- assert (Py.partition a "; " <> None) by congruence.
           rewrite partition_none_iff in H. congruence.
        -- cbn [unpack2]. split; auto.
  - intros out c Hs Hn. now apply loop_body_unparsed.
Qed.

Lemma parse_failure_iff_witness :
  exists id_descr score effective,
    Py.rsplit (Py.rstrip "a;b;c;d" crlf) ";" 2 = [id_descr; score; effective]
    /\ (split_line "a;b;c;d" = None
        <-> Py.contains id_descr "; " = false
            /\ Py.endswith id_descr ";" = false)
    /\ (forall out c,
          skipped "a;b;c;d" = false -> split_line "a;b;c;d" = None ->
          loop_body out "a;b;c;d" c
          = ([], inl (SystemExit
                        (ExitMsg ("Problem parsing line:" ++ nl ++ "a;b;c;d"
                                  ++ nl))))).
Proof.
  apply (parse_failure_iff "a;b;c;d"). vm_compute. lia.
Defined.

(** The left piece of [partition] ends before the first separator: none
    starts at an earlier position. *)
Lemma partition_first_position (s sep l r : string) :
  Py.partition s sep = Some (l, r) ->
  forall k, (k < String.length l)%nat ->
            Py.startswith (Py.slice_from k s) sep = false.
Proof.
  revert l. induction s as [|x s IH]; intros l H k Hk;
    cbn [Py.partition] in H.
  - destruct (Py.startswith EmptyString sep); [|discriminate].
    injection H as <- _. cbn in Hk. lia.
  - destruct (Py.startswith (String x s) sep) eqn:E.
    + injection H as <- _. cbn in Hk. lia.
    + destruct (Py.partition s sep) as [[l' r']|] eqn:Ep; [|discriminate].
      injection H as <- <-. destruct k as [|k]; [exact E|].
      cbn [Py.slice_from]. apply (IH l' eq_refl). cbn in Hk. lia.
Qed.

Lemma unpack3_some (l : list string) (a b d : string) :
  unpack3 l = Some (a, b, d) -> l = [a; b; d].
Proof.
  destruct l as [|x [|y [|z [|u l]]]]; try discriminate.
  intros H. now injection H as -> -> ->.
Qed.

(** X6.  For a line that splits into id, description, score and
    classification, the id has no ["; "] in it, and the piece left of the
    last two semicolons is made in one of two ways.  Either it is the id,
    the first ["; "] of the piece (none starts before the end of the id)
    and the description, which takes all the rest, later ["; "]
    included; or the piece has no ["; "], it is the id followed by the
    semicolon before the score, and the description is empty. *)
Theorem id_stops_at_first_separator :
  forall line id descr score effective,
    split_line line = Some (id, descr, score, effective) ->
    exists id_descr,
      Py.rsplit (Py.rstrip line crlf) ";" 2 = [id_descr; score; effective]
      /\ Py.rstrip line crlf
         = (id_descr ++ ";" ++ score ++ ";" ++ effective)%string
      /\ Py.contains id "; " = false
      /\ ((id_descr = (id ++ "; " ++ descr)%string
           /\ forall k, (k < String.length id)%nat ->
                        Py.startswith (Py.slice_from k id_descr) "; "
                        = false)
          \/ (Py.contains id_descr "; " = false
              /\ id_descr = (id ++ ";")%string /\ descr = EmptyString)).
Proof.
  intros line id descr score effective H. unfold split_line in H.
  destruct (unpack3 (Py.rsplit (Py.rstrip line crlf) ";" 2))
    as [[[a b] d]|] eqn:E; [|discriminate].
  assert (Hsplit : forall l r,
             Py.partition a "; " = Some (l, r) ->
             Py.contains l "; " = false
             /\ a = (l ++ "; " ++ r)%string
             /\ forall k, (k < String.length l)%nat ->
                          Py.startswith (Py.slice_from k a) "; " = false).
  { intros l r Ep. split; [|split].
    - eapply partition_first; [|exact Ep]. discriminate.
    - now apply partition_some.
    - now apply (partition_first_position _ _ _ _ Ep). }
  assert (Hcut : Py.contains id "; " = false
                 /\ b = score /\ d = effective
                 /\ ((a = (id ++ "; " ++ descr)%string
                      /\ forall k, (k < String.length id)%nat ->
                                   Py.startswith (Py.slice_from k a) "; "
                                   = false)
                     \/ (Py.contains a "; " = false
                         /\ a = (id ++ ";")%string
                         /\ descr = EmptyString))).
  { destruct (Py.contains a "; ") eqn:Ec; cbn [negb andb] in H.
    - cbn [Py.split] in H.
      destruct (Py.partition a "; ") as [[l r]|] eqn:Ep; [|discriminate].
      cbn [unpack2] in H. injection H as <- <- <- <-.
      destruct (Hsplit _ _ eq_refl) as (H1 & H2 & H3).
      split; [exact H1|]. split; [reflexivity|]. split; [reflexivity|].
      left. split; assumption.
    - destruct (Py.endswith a ";") eqn:Ee.
      + injection H as <- <- <- <-.
        split; [|split; [reflexivity|split; [reflexivity|]]].
        * destruct (Py.contains (Py.slice_to_minus1 a) "; ") eqn:Ei;
            [|reflexivity].
          destruct (slice_to_minus1_prefix a) as [r Hr].
          rewrite Hr, (contains_app_l _ r _ Ei) in Ec. discriminate.
        * right. split; [reflexivity|].
          split; [now apply endswith_char | reflexivity].
      + cbn [Py.split] in H.
        destruct (Py.partition a "; ") as [[l r]|] eqn:Ep; [|discriminate].
        cbn [unpack2] in H. injection H as <- <- <- <-.
        destruct (Hsplit _ _ eq_refl) as (H1 & H2 & H3).
      split; [exact H1|]. split; [reflexivity|]. split; [reflexivity|].
      left. split; assumption. }
  destruct Hcut as (Hid & -> & -> & Hcases).
  exists a. split; [now apply unpack3_some|].
  split; [now apply unpack3_rsplit|]. split; assumption.
Qed.

Lemma id_stops_at_first_separator_witness :
  exists id_descr,
    Py.rsplit (Py.rstrip "sp|P1; kinase; EC 2.7; 0.9; true" crlf) ";" 2
    = [id_descr; " 0.9"; " true"]
    /\ Py.rstrip "sp|P1; kinase; EC 2.7; 0.9; true" crlf
       = (id_descr ++ ";" ++ " 0.9" ++ ";" ++ " true")%string
    /\ Py.contains "sp|P1" "; " = false
    /\ ((id_descr = ("sp|P1" ++ "; " ++ "kinase; EC 2.7")%string
         /\ forall k, (k < String.length "sp|P1")%nat ->
                      Py.startswith (Py.slice_from k id_descr) "; " = false)
        \/ (Py.contains id_descr "; " = false
            /\ id_descr = ("sp|P1" ++ ";")%string
            /\ "kinase; EC 2.7" = EmptyString)).
Proof.
  apply (id_stops_at_first_separator "sp|P1; kinase; EC 2.7; 0.9; true"
           "sp|P1" "kinase; EC 2.7" " 0.9" " true").
  reflexivity.
Defined.

(** ** Newlines and white space *)

Lemma char_in_app (c : ascii) (a b : string) :
  Py.char_in c (a ++ b) = Py.char_in c a || Py.char_in c b.
Proof.
  induction a as [|x a IH]; [reflexivity|].
  cbn [Py.char_in String.append]. now rewrite IH, orb_assoc.
Qed.

Lemma char_in_rstrip (c : ascii) (s chars : string) :
  Py.char_in c s = false -> Py.char_in c (Py.rstrip s chars) = false.
Proof.
  induction s as [|x s IH]; [reflexivity|].
  cbn [Py.char_in Py.rstrip]. intros H. apply orb_false_elim in H as [H1 H2].
  specialize (IH H2). destruct (Py.rstrip s chars) as [|y r].
  - destruct (Py.char_in x chars); [reflexivity|].
    cbn [Py.char_in]. now rewrite H1.
  - cbn [Py.char_in] in *. now rewrite H1, IH.
Qed.

Lemma char_in_lstrip (c : ascii) (s chars : string) :
  Py.char_in c s = false -> Py.char_in c (Py.lstrip s chars) = false.
Proof.
  induction s as [|x s IH]; [reflexivity|].
  cbn [Py.lstrip]. intros H. destruct (Py.char_in x chars); [|exact H].
  cbn [Py.char_in] in H. apply orb_false_elim in H as [_ H]. now apply IH.
Qed.

Lemma char_in_strip (c : ascii) (s : string) :
  Py.char_in c s = false -> Py.char_in c (Py.strip s) = false.
Proof. intros H. now apply char_in_rstrip, char_in_lstrip. Qed.

Lemma char_in_slice_to_minus1 (c : ascii) (s : string) :
  Py.char_in c s = false -> Py.char_in c (Py.slice_to_minus1 s) = false.
Proof.
  intros H. destruct (slice_to_minus1_prefix s) as [r Hr].
  rewrite Hr, char_in_app in H. now apply orb_false_elim in H as [H _].
Qed.

Lemma rstrip_app_nl (s : string) :
  Py.rstrip (s ++ nl) crlf = Py.rstrip s crlf.
Proof.
  induction s as [|x s IH]; [reflexivity|].
  cbn [String.append Py.rstrip]. now rewrite IH.
Qed.

(** A line a file object yields is not empty and has no newline but at
    its end. *)
Lemma readlines_line (content line : string) :
  In line (readlines content) ->
  line <> EmptyString
  /\ exists body, (line = (body ++ nl)%string \/ line = body)
                  /\ Py.char_in "010" body = false.
Proof.
  revert line. induction content as [|x rest IH]; intros line H;
    [destruct H|].
  cbn [readlines] in H. destruct (Ascii.eqb_spec x "010") as [->|Hx].
  - destruct H as [<-|H]; [|now apply IH].
    split; [discriminate|]. exists EmptyString. split; [now left | reflexivity].
  - apply Ascii.eqb_neq in Hx.
    destruct (readlines rest) as [|l ls].
    + destruct H as [<-|[]]. split; [discriminate|].
      exists (String x EmptyString). split; [now right|].
      cbn [Py.char_in]. rewrite Ascii.eqb_sym, Hx. reflexivity.
    + destruct H as [<-|H]; [|apply IH; now right].
      split; [discriminate|].
      destruct (IH l (or_introl eq_refl)) as (_ & body & Hb & Hn).
      exists (String x body). split.
      * destruct Hb as [->| ->]; [now left | now right].
      * cbn [Py.char_in]. rewrite Ascii.eqb_sym, Hx. exact Hn.
Qed.

(** The lines a file object yields, put end to end, are the file. *)
Lemma readlines_concat (content : string) :
  fold_right String.append EmptyString (readlines content) = content.
Proof.
  induction content as [|x rest IH]; [reflexivity|].
  cbn [readlines]. destruct (Ascii.eqb x "010").
  - cbn [fold_right String.append]. now rewrite IH.
  - destruct (readlines rest) as [|l ls]; cbn [fold_right String.append] in *;
      now rewrite IH.
Qed.

(** X8.  The row of a line read from a file is one line: it ends with a
    newline and has no other. *)
Theorem rows_are_single_lines :
  forall content line f,
    In line (readlines content) -> split_line line = Some f ->
    single_line (row f).
Proof.
  intros content line f Hin Hf.
  destruct (readlines_line _ _ Hin) as (_ & body & Hb & Hn).
  assert (Hs : Py.char_in "010" (Py.rstrip line crlf) = false).
  { destruct Hb as [->| ->]; [rewrite rstrip_app_nl|];
      now apply char_in_rstrip. }
  unfold split_line in Hf.
  destruct (unpack3 (Py.rsplit (Py.rstrip line crlf) ";" 2))
    as [[[a b] d]|] eqn:E; [|discriminate].
  apply unpack3_rsplit in E. rewrite E, !char_in_app in Hs.
  repeat (apply orb_false_elim in Hs as [? Hs]).
  assert (Hid : exists id descr,
             f = (id, descr, b, d)
             /\ Py.char_in "010" id = false
             /\ Py.char_in "010" descr = false).
  { destruct (negb (Py.contains a "; ") && Py.endswith a ";").
    - injection Hf as <-. do 2 eexists. split; [reflexivity|].
      split; [now apply char_in_slice_to_minus1 | reflexivity].
    - cbn [Py.split] in Hf.
      destruct (Py.partition a "; ") as [[l r]|] eqn:Ep; [|discriminate].
      cbn [unpack2] in Hf. injection Hf as <-.
      apply partition_some in Ep. subst a.
      match goal with
      | Ha : Py.char_in _ (l ++ _ ++ r) = false |- _ =>
          rewrite !char_in_app in Ha;
          repeat (apply orb_false_elim in Ha as [? Ha])
      end.
      do 2 eexists. split; [reflexivity|]. split; assumption. }
  destruct Hid as (id & descr & -> & Hi & Hd).
  unfold single_line, row, parts. cbn [map Py.join].
  eexists. split; [reflexivity|].
  rewrite !char_in_app.
  rewrite !char_in_strip by assumption. reflexivity.
Qed.

Lemma rows_are_single_lines_witness :
  single_line (row ("a", "b", " 1", " true")).
Proof.
  apply (rows_are_single_lines ("a; b; 1; true" ++ nl ++ "c")
           ("a; b; 1; true" ++ nl)%string ("a", "b", " 1", " true")).
  - left. reflexivity.
  - reflexivity.
Defined.

Lemma whitespace_char (x : ascii) :
  Py.char_in x Py.whitespace = true ->
  Ascii.eqb x "#" = false /\ Ascii.eqb x "I" = false
  /\ Ascii.eqb x ";" = false.
Proof.
  destruct x as [[] [] [] [] [] [] [] []]; intros H;
    try discriminate H; repeat split.
Qed.

Lemma blank_count (line : string) :
  blank line = true -> Py.count line ";" = O.
Proof.
  induction line as [|x s IH]; [reflexivity|].
  cbn [blank]. intros H. apply andb_prop in H as [Hx Hs].
  rewrite count_cons, (IH Hs).
  destruct (whitespace_char _ Hx) as (_ & _ & ->). reflexivity.
Qed.

Lemma blank_not_skipped (line : string) :
  line <> EmptyString -> blank line = true -> skipped line = false.
Proof.
  destruct line as [|x s]; [contradiction|]. intros _ H.
  cbn [blank] in H. apply andb_prop in H as [Hx _].
  destruct (whitespace_char _ Hx) as (H1 & H2 & _).
  unfold skipped. cbn. now rewrite H1, H2.
Qed.

(** X9.  Reading a file never gives the empty string, so on the tool's output
    the test [not line] skips nothing, and a line of white space only is
    not skipped: it has no semicolon, and the run ends on the
    [AssertionError] that gives the line. *)
Theorem blank_line_is_fatal :
  (forall content line,
     In line (readlines content) ->
     line <> EmptyString
     /\ skipped line
        = Py.startswith line "#"
          || Py.startswith line "Id; Description; Score;")
  /\ (forall w argv pre line post t c1,
        reaches_normalizer w argv = true ->
        raw_lines w argv = pre ++ line :: post ->
        clean_tabular pre (abspath w (tabular_arg argv)) = (t, inr c1) ->
        blank line = true ->
        main w argv
        = (before_normalizer_arg w argv ++ t,
           inl (AssertionError (Fmt.repr line)))
        /\ exit_status (snd (main w argv)) = 1%Z).
Proof.
  split.
  - intros content line H. destruct (readlines_line _ _ H) as [Hne _].
    split; [exact Hne|]. unfold skipped.
    destruct line; [contradiction | reflexivity].
  - intros w argv pre line post t c1 Hr Hl Hpre Hb.
    assert (Hin : In line (raw_lines w argv))
      by (rewrite Hl; apply in_elt).
    destruct (readlines_line _ _ Hin) as [Hne _].
    assert (Hbody := loop_body_too_few (abspath w (tabular_arg argv)) line c1
                       (blank_not_skipped _ Hne Hb)).
    rewrite (blank_count _ Hb) in Hbody. specialize (Hbody ltac:(lia)).
    assert (Hm : main w argv
                 = (before_normalizer_arg w argv ++ t,
                    inl (AssertionError (Fmt.repr line)))).
    { rewrite (main_from_normalizer _ _ Hr), Hl. unfold clean_tabular in *.
      rewrite (for_lines_stops _ pre post line _ c1 t [] _ Hpre Hbody).
      now rewrite app_nil_r. }
    rewrite Hm. split; reflexivity.
Qed.

Lemma blank_line_is_fatal_witness :
  main (stub_world ("a; b; 1; true" ++ nl ++ " " ++ nl ++ "c; d; 2; true"))
    (stub_argv "selective")
  = (before_normalizer_arg
       (stub_world ("a; b; 1; true" ++ nl ++ " " ++ nl ++ "c; d; 2; true"))
       (stub_argv "selective")
     ++ [Write "/galaxy/out.tabular"
           ("a" ++ tab ++ "b" ++ tab ++ "1" ++ tab ++ "true" ++ nl)],
     inl (AssertionError (Fmt.repr (" " ++ nl))))
  /\ exit_status
       (snd (main (stub_world ("a; b; 1; true" ++ nl ++ " " ++ nl
                               ++ "c; d; 2; true"))
               (stub_argv "selective"))) = 1%Z.
Proof.
  apply (proj2 blank_line_is_fatal
           (stub_world ("a; b; 1; true" ++ nl ++ " " ++ nl ++ "c; d; 2; true"))
           (stub_argv "selective")
           ["a; b; 1; true" ++ nl]%string (" " ++ nl)%string ["c; d; 2; true"]
           [Write "/galaxy/out.tabular"
              ("a" ++ tab ++ "b" ++ tab ++ "1" ++ tab ++ "true" ++ nl)]
           (Counters 1 0 0)); reflexivity.
Defined.

(** ** Trimmed fields *)

Lemma rstrip_idem (s chars : string) :
  Py.rstrip (Py.rstrip s chars) chars = Py.rstrip s chars.
Proof.
  induction s as [|x s IH]; [reflexivity|].
  cbn [Py.rstrip]. destruct (Py.rstrip s chars) as [|y r] eqn:E.
  - destruct (Py.char_in x chars) eqn:Ex; [reflexivity|].
    cbn [Py.rstrip]. now rewrite Ex.
  - change (Py.rstrip (String x (String y r)) chars)
      with (match Py.rstrip (String y r) chars with
            | EmptyString => if Py.char_in x chars then EmptyString
                             else String x EmptyString
            | r' => String x r'
            end).
    now rewrite IH.
Qed.

Lemma lstrip_head (s chars : string) :
  Py.lstrip s chars = EmptyString
  \/ exists x r, Py.lstrip s chars = String x r
                 /\ Py.char_in x chars = false.
Proof.
  induction s as [|x s IH]; [now left|].
  cbn [Py.lstrip]. destruct (Py.char_in x chars) eqn:E; [exact IH|].
  right. now exists x, s.
Qed.

Lemma strip_idem (s : string) : Py.strip (Py.strip s) = Py.strip s.
Proof.
  unfold Py.strip.
  destruct (lstrip_head s Py.whitespace) as [-> | (x & r & -> & Hx)];
    [reflexivity|].
  assert (H : exists r', Py.rstrip (String x r) Py.whitespace = String x r').
  { cbn [Py.rstrip]. destruct (Py.rstrip r Py.whitespace).
    - rewrite Hx. now eexists.
    - now eexists. }
  destruct H as [r' Hr]. rewrite Hr.
  cbn [Py.lstrip]. rewrite Hx, <- Hr. apply rstrip_idem.
Qed.

(** X7.  The fields written to a row are trimmed: stripping one again changes
    nothing. *)
Theorem parts_are_trimmed :
  forall f p, In p (parts f) -> Py.strip p = p.
Proof.
  intros [[[id descr] score] effective] p H. unfold parts in H.
  cbn [map In] in H.
  destruct H as [<-|[<-|[<-|[<-|[]]]]]; apply strip_idem.
Qed.

Lemma parts_are_trimmed_witness : Py.strip "0.9" = "0.9".
Proof.
  apply (parts_are_trimmed ("id", " d ", " 0.9", " true") "0.9").
  cbn. auto.
Defined.

(** ** The loop on whole streams *)

(** X2.  On a stream of skipped and well-formed lines [clean_tabular]
    returns, having written the rows of the records in order; the count
    is the number of lines not skipped, the error counter the number of
    records with a negative score, and the positive counter the number
    of records whose classification, as split, says true, which is at
    most the number of those whose trimmed classification does. *)
Theorem clean_tabular_on_well_formed :
  forall raw out,
    stream_ok raw ->
    exists c,
      clean_tabular raw out
      = (map (fun f => Write out (row f)) (records raw), inr c)
      /\ count c = length (filter (fun l => negb (skipped l)) raw)
      /\ count c = length (records raw)
      /\ errors c = length (filter negative (records raw))
      /\ positive c = length (filter says_true (records raw))
      /\ (positive c <= length (filter classified_true (records raw)))%nat.
Proof.
  intros raw out H. eexists. split; [now apply clean_tabular_accounting|].
  cbn [count errors positive].
  split; [now apply records_length|].
  split; [reflexivity|]. split; [reflexivity|]. split; [reflexivity|].
  apply filter_length_le, says_true_classified_true.
Qed.

Lemma clean_tabular_on_well_formed_witness :
  exists c,
    clean_tabular ["a; b; -1;true"; "#c"; "d;; 2; false"] "out"
    = (map (fun f => Write "out" (row f))
         (records ["a; b; -1;true"; "#c"; "d;; 2; false"]), inr c)
    /\ count c
       = length (filter (fun l => negb (skipped l))
                   ["a; b; -1;true"; "#c"; "d;; 2; false"])
    /\ count c = length (records ["a; b; -1;true"; "#c"; "d;; 2; false"])
    /\ errors c
       = length (filter negative
                   (records ["a; b; -1;true"; "#c"; "d;; 2; false"]))
    /\ positive c
       = length (filter says_true
                   (records ["a; b; -1;true"; "#c"; "d;; 2; false"]))
    /\ (positive c
        <= length (filter classified_true
                     (records ["a; b; -1;true"; "#c"; "d;; 2; false"])))%nat.
Proof.
  apply (clean_tabular_on_well_formed
           ["a; b; -1;true"; "#c"; "d;; 2; false"] "out").
  repeat constructor; (now left) || (now right).
Defined.

(** X4.  Whatever [clean_tabular] does, return or raise, it has written the
    rows of the records of some first lines of its input, in order, and
    nothing else; when it returns, those are all the records, and the
    count is their number. *)
Theorem clean_tabular_writes_rows_in_order :
  forall raw out,
    exists k,
      (k <= length raw)%nat
      /\ fst (clean_tabular raw out)
         = map (fun f => Write out (row f)) (records (firstn k raw))
      /\ (forall c,
            snd (clean_tabular raw out) = inr c ->
            fst (clean_tabular raw out)
            = map (fun f => Write out (row f)) (records raw)
            /\ count c = length (records raw)).
Proof.
  intros raw out.
  destruct (for_lines_trace out raw (Counters 0 0 0)) as (k & Hk & Ht).
  exists k. split; [exact Hk|]. split; [exact Ht|].
  intros c Hc. unfold clean_tabular in *.
  destruct (for_lines (loop_body out) raw (Counters 0 0 0)) as [t r] eqn:E.
  cbn [fst snd] in *. subst r.
  pose proof (for_lines_returns_records _ _ _ _ _ E) as ->.
  split; [reflexivity|].
  destruct (for_lines_returns _ _ _ _ _ E) as (rows & Hrows & Hn & _).
  apply (f_equal (@length event)) in Hrows.
  rewrite !length_map in Hrows. cbn in Hn. lia.
Qed.

Lemma clean_tabular_writes_rows_in_order_witness :
  exists k,
    (k <= length ["a; b; 1; true"; "x;y"])%nat
    /\ fst (clean_tabular ["a; b; 1; true"; "x;y"] "out")
       = map (fun f => Write "out" (row f))
           (records (firstn k ["a; b; 1; true"; "x;y"]))
    /\ (forall c,
          snd (clean_tabular ["a; b; 1; true"; "x;y"] "out") = inr c ->
          fst (clean_tabular ["a; b; 1; true"; "x;y"] "out")
          = map (fun f => Write "out" (row f))
              (records ["a; b; 1; true"; "x;y"])
          /\ count c = length (records ["a; b; 1; true"; "x;y"])).
Proof.
  exact (clean_tabular_writes_rows_in_order ["a; b; 1; true"; "x;y"] "out").
Defined.

Lemma records_skipped raw :
  Forall (fun l => skipped l = true) raw -> records raw = [].
Proof.
  induction 1 as [|line rest H _ IH]; [reflexivity|].
  now rewrite records_cons, H, IH.
Qed.

(** X17.  When the tool's output has only skipped lines, or is empty, the
    output file gets the header row alone, the temporary file is
    removed, the summary counts no sequence and the script ends
    normally. *)
Theorem only_skipped_lines_give_header_only :
  forall w argv,
    reaches_normalizer w argv = true ->
    Forall (fun l => skipped l = true) (raw_lines w argv) ->
    main w argv
    = (before_normalizer_arg w argv
       ++ [Remove (temp_file w (tabular_arg argv));
           Print "0/0 sequences positive"],
       inr tt).
Proof.
  intros w argv Hr Hs. rewrite (main_from_normalizer _ _ Hr).
  assert (Hok : stream_ok (raw_lines w argv)).
  { unfold stream_ok. eapply Forall_impl; [|exact Hs]. cbn. auto. }
  rewrite (clean_tabular_accounting _ _ Hok), (records_skipped _ Hs).
  reflexivity.
Qed.

Lemma only_skipped_lines_give_header_only_witness :
  main (stub_world ("Id; Description; Score; is secreted" ++ nl
                    ++ "# no sequences" ++ nl))
    (stub_argv "selective")
  = (before_normalizer_arg
       (stub_world ("Id; Description; Score; is secreted" ++ nl
                    ++ "# no sequences" ++ nl))
       (stub_argv "selective")
     ++ [Remove (temp_file
                   (stub_world ("Id; Description; Score; is secreted" ++ nl
                                ++ "# no sequences" ++ nl))
                   (tabular_arg (stub_argv "selective")));
         Print "0/0 sequences positive"],
     inr tt).
Proof.
  apply (only_skipped_lines_give_header_only
           (stub_world ("Id; Description; Score; is secreted" ++ nl
                        ++ "# no sequences" ++ nl))
           (stub_argv "selective")).
  - reflexivity.
  - repeat constructor.
Defined.

(** ** Starting the tool *)

(** X10.  [run] starts the command once.  It returns only when the tool
    exited with code zero and its stderr does not start with the
    exception marker; in every other case, a failed start included, it
    stops in [sys.exit] with a message that has the command line in
    it. *)
Theorem run_outcome :
  forall w c,
    fst (run w c) = [Popen c]
    /\ (snd (run w c) = inr tt
        <-> exists out err,
              popen w c = Exited 0 out err
              /\ Py.startswith err "Exception in thread" = false)
    /\ (snd (run w c) <> inr tt ->
        exists msg,
          snd (run w c) = inl (SystemExit (ExitMsg msg))
          /\ Py.contains msg (Py.join " " c) = true).
Proof.
  intros w c. split; [apply run_trace|].
  unfold run. destruct (popen w c) as [err|rc out err] eqn:Ep.
  - split.
    + split; [discriminate | intros (o & e & H & _); discriminate].
    + intros _. eexists. split; [reflexivity|].
      do 2 apply contains_app_r.
      apply contains_startswith, startswith_self_app.
  - destruct (Z.eqb_spec rc 0) as [->|Hrc]; cbn [negb orb].
    + destruct (Py.startswith err "Exception in thread") eqn:Em.
      * split.
        -- split.
           ++ destruct (negb (err =? "")%string && negb (out =? "")%string);
                discriminate.
           ++ intros (o & e & H & He). injection H as <- <-. congruence.
        -- intros _.
           destruct (negb (err =? "")%string && negb (out =? "")%string);
             eexists; (split; [reflexivity|]);
             do 4 apply contains_app_r;
             apply contains_startswith, startswith_self_app.
      * split; [|intros H; now contradiction H].
        split; [|reflexivity]. intros _. now exists out, err.
    + split.
      * split.
        -- destruct (negb (err =? "")%string && negb (out =? "")%string);
             discriminate.
        -- intros (o & e & H & _). injection H as -> _ _. contradiction.
      * intros _.
        destruct (negb (err =? "")%string && negb (out =? "")%string);
          eexists; (split; [reflexivity|]);
          do 4 apply contains_app_r;
          apply contains_startswith, startswith_self_app.
Qed.

Lemma run_outcome_witness :
  exists msg,
    snd (run (stub_world_with EmptyString (Exited 0 "done" "Exception in thread main"))
           ["java"; "-q"])
    = inl (SystemExit (ExitMsg msg))
    /\ Py.contains msg (Py.join " " ["java"; "-q"]) = true.
Proof.
  apply (proj2 (proj2 (run_outcome
                         (stub_world_with EmptyString
                            (Exited 0 "done" "Exception in thread main"))
                         ["java"; "-q"]))).
  discriminate.
Defined.

Lemma well_formed_intro line f x :
  (3 <= Py.count line ";")%nat -> split_line line = Some f ->
  Float.float (score_of f) = Some x -> well_formed line = true.
Proof.
  intros H1 H2 H3. unfold well_formed. rewrite H2, H3.
  apply Nat.leb_le in H1. now rewrite H1.
Qed.

Lemma for_lines_returns_stream_ok out raw c t c' :
  for_lines (loop_body out) raw c = (t, inr c') -> stream_ok raw.
Proof.
  revert c t. induction raw as [|line rest IH]; intros c t H;
    [constructor|].
  cbn [for_lines] in H.
  destruct (loop_body out line c) as [t1 [e|c1]] eqn:E1; [discriminate|].
  unfold bind in H.
  destruct (for_lines (loop_body out) rest c1) as [t2 r2] eqn:E2.
  injection H as _ ->. constructor; [|eapply IH; exact E2].
  destruct (loop_body_returns _ _ _ _ _ E1)
    as [(Hs & _) | (_ & H3 & f & x & Hf & Hx & _)]; [now left|].
  right. eapply well_formed_intro; eassumption.
Qed.

(** X1.  [clean_tabular] returns exactly on the streams whose every line is
    skipped or well-formed. *)
Theorem clean_tabular_returns_iff_stream_ok :
  forall raw out,
    (exists c, snd (clean_tabular raw out) = inr c) <-> stream_ok raw.
Proof.
  intros raw out. split.
  - intros [c Hc]. unfold clean_tabular in Hc.
    destruct (for_lines (loop_body out) raw (Counters 0 0 0)) as [t r] eqn:E.
    cbn [snd] in Hc. subst r. eapply for_lines_returns_stream_ok. exact E.
  - intros H. rewrite (clean_tabular_accounting _ _ H). now eexists.
Qed.

Lemma clean_tabular_returns_iff_stream_ok_witness :
  exists c,
    snd (clean_tabular ["Id; Description; Score; x"; "a;; 0.5; false"] "out")
    = inr c.
Proof.
  apply (proj2 (clean_tabular_returns_iff_stream_ok
                  ["Id; Description; Score; x"; "a;; 0.5; false"] "out")).
  repeat constructor; (now left) || (now right).
Defined.

Lemma loop_body_raises out line c t e :
  loop_body out line c = (t, inl e) -> stops_on line e.
Proof.
  intros H. unfold stops_on. destruct (skipped line) eqn:Hs.
  { rewrite loop_body_skipped in H by assumption. discriminate. }
  split; [reflexivity|].
  destruct (Nat.lt_ge_cases (Py.count line ";") 3) as [H3|H3].
  { rewrite loop_body_too_few in H by assumption. injection H as _ <-.
    left. auto. }
  right. destruct (split_line line) as [f|] eqn:Hf.
  - right. destruct (Float.float (score_of f)) as [x|] eqn:Hx.
    { rewrite (loop_body_record _ _ _ f x) in H by assumption.
      discriminate. }
    rewrite (loop_body_bad_score _ _ _ f) in H by assumption.
    injection H as _ <-. split; [assumption|]. split; [|reflexivity].
    now exists f.
  - left. rewrite loop_body_unparsed in H by assumption.
    injection H as _ <-. auto.
Qed.

Lemma for_lines_raises out raw c t e :
  for_lines (loop_body out) raw c = (t, inl e) ->
  exists pre line post,
    raw = pre ++ line :: post /\ stream_ok pre /\ stops_on line e.
Proof.
  revert c t. induction raw as [|line rest IH]; intros c t H;
    [discriminate|].
  cbn [for_lines] in H.
  destruct (loop_body out line c) as [t1 [e1|c1]] eqn:E1.
  - injection H as _ <-. exists [], line, rest.
    split; [reflexivity|]. split; [constructor|].
    eapply loop_body_raises. exact E1.
  - unfold bind in H.
    destruct (for_lines (loop_body out) rest c1) as [t2 r2] eqn:E2.
    injection H as _ ->.
    destruct (IH _ _ E2) as (pre & l & post & -> & Hpre & Hl).
    exists (line :: pre), l, post. split; [reflexivity|].
    split; [|exact Hl]. constructor; [|exact Hpre].
    destruct (loop_body_returns _ _ _ _ _ E1)
      as [(Hs & _) | (_ & H3 & f & x & Hf & Hx & _)]; [now left|].
    right. eapply well_formed_intro; eassumption.
Qed.

(** X3.  When [clean_tabular] raises, it is on the first line of its input
    that is neither skipped nor well-formed: an [AssertionError] with
    [repr(line)] when the line has fewer than three semicolons, the
    [sys.exit] that gives the line when its fields do not split, and a
    [ValueError] when they split but [float] does not read the score. *)
Theorem normalizer_failure_kinds :
  forall raw out e,
    snd (clean_tabular raw out) = inl e ->
    exists pre line post,
      raw = pre ++ line :: post /\ stream_ok pre /\ stops_on line e.
Proof.
  intros raw out e H. unfold clean_tabular in H.
  destruct (for_lines (loop_body out) raw (Counters 0 0 0)) as [t r] eqn:E.
  cbn [snd] in H. subst r. eapply for_lines_raises. exact E.
Qed.

Lemma normalizer_failure_kinds_witness :
  exists pre line post,
    ["a; b; 1; true"; "x;y"; "c; d; 2; true"] = pre ++ line :: post
    /\ stream_ok pre /\ stops_on line (AssertionError "'x;y'").
Proof.
  apply (normalizer_failure_kinds
           ["a; b; 1; true"; "x;y"; "c; d; 2; true"] "out").
  reflexivity.
Defined.
